(* Verification development for limited-github-cli-mcp, src/src/index.ts.

   The server exposes four GitHub pull-request tools (create_pr, list_prs,
   view_pr, comment_pr).  A call is validated by a type-guard predicate,
   turned into a `gh` command suffix by string templates, run through
   `execSync`, and answered with a reply envelope.

   Modelling choices:
   - the untyped argument value is a JS value [jsval] (JSON-shaped:
     undefined, null, booleans, numbers, strings, arrays, objects);
   - JS numbers are modelled by their exact value (a rational) or NaN or
     an infinity; the decimal printing of integers of magnitude below 2^53 is written
     out, the printing of other finite numbers is left as a parameter;
   - reading a property of undefined or null raises a TypeError, so the
     validators are written in an error monad [res] with the short-circuit
     of `&&` and `||` written out;
   - `execSync` is a parameter (the external process); the dispatcher
     returns its result together with the list of command lines it ran. *)

From Stdlib Require Import String Ascii List ZArith QArith Bool Lia.
Import ListNotations.
Close Scope Q_scope.
Open Scope string_scope.
Set Warnings "-register-all".

(* ------------------------------------------------------------------ *)
(** * JS values *)

Inductive number : Type :=
| NFin (q : Q)          (* a finite number, by its exact value *)
| NNaN
| NInf (pos : bool).    (* +Infinity when [pos], -Infinity otherwise *)

Inductive jsval : Type :=
| JUndef
| JNull
| JBool (b : bool)
| JNum (n : number)
| JStr (s : string)
| JArr (elems : list jsval)
| JObj (props : list (string * jsval)).
(* A JS object has at most one own property per key; [props] is read
   front to back. *)

(** Thrown values.  [McpErr] is the SDK's [McpError] (a subclass of
    [Error]) with its code and constructor message; [TypeErr] and
    [PlainErr] are other [Error] instances; [NonErr] is any thrown value
    that is not an [Error]. *)
Inductive thrown : Type :=
| McpErr (code : Z) (msg : string)
| TypeErr (msg : string)
| PlainErr (msg : string)
| NonErr (v : jsval).

Inductive res (A : Type) : Type :=
| Ok (a : A)
| Throw (e : thrown).
Arguments Ok {A} a.
Arguments Throw {A} e.

(** ErrorCode of the MCP SDK. *)
Definition ErrorCode_InvalidParams : Z := -32602.
Definition ErrorCode_MethodNotFound : Z := -32601.
Definition ErrorCode_InternalError : Z := -32603.

(* ------------------------------------------------------------------ *)
(** * Decimal printing *)

Definition digit_char (d : N) : ascii := ascii_of_nat (48 + N.to_nat d).

(* [fuel] bounds the number of digits; the bit length of [p] suffices. *)
Fixpoint pos_digits (fuel : nat) (p : positive) (acc : string) : string :=
  match fuel with
  | O => acc
  | S f =>
      let (q, r) := N.div_eucl (Npos p) 10 in
      let acc' := String (digit_char r) acc in
      match q with
      | N0 => acc'
      | Npos q' => pos_digits f q' acc'
      end
  end.

Definition Z_to_string (z : Z) : string :=
  match z with
  | Z0 => "0"
  | Zpos p => pos_digits (Pos.size_nat p) p ""
  | Zneg p => "-" ++ pos_digits (Pos.size_nat p) p ""
  end.

(** The double-quote character. *)
Definition dq : string := String (ascii_of_nat 34) EmptyString.

(* ------------------------------------------------------------------ *)
(** * Operations on JS values used by the code *)

(** [Number.isInteger] on a number. *)
Definition number_is_integer (n : number) : bool :=
  match n with
  | NFin q => Z.eqb (Z.rem (Qnum q) (Zpos (Qden q))) 0
  | _ => false
  end.

Definition Number_isInteger (v : jsval) : bool :=
  match v with
  | JNum n => number_is_integer n
  | _ => false
  end.

(** [x > 0] for a number [x]. *)
Definition number_gt0 (n : number) : bool :=
  match n with
  | NFin q => Z.ltb 0 (Qnum q)
  | NNaN => false
  | NInf pos => pos
  end.

(* In the validators [args.number > 0] is only reached once
   [typeof args.number === 'number'] holds, so only numbers matter. *)
Definition js_gt_zero (v : jsval) : bool :=
  match v with
  | JNum n => number_gt0 n
  | _ => false
  end.

Definition js_typeof (v : jsval) : string :=
  match v with
  | JUndef => "undefined"
  | JNull | JArr _ | JObj _ => "object"
  | JBool _ => "boolean"
  | JNum _ => "number"
  | JStr _ => "string"
  end.

Definition is_undefined (v : jsval) : bool :=
  match v with JUndef => true | _ => false end.

Definition is_null (v : jsval) : bool :=
  match v with JNull => true | _ => false end.

(** Truthiness, as used by [if (x)]. *)
Definition js_truthy (v : jsval) : bool :=
  match v with
  | JUndef | JNull => false
  | JBool b => b
  | JNum (NFin q) => negb (Z.eqb (Qnum q) 0)
  | JNum NNaN => false
  | JNum (NInf _) => true
  | JStr s => negb (String.eqb s "")
  | JArr _ | JObj _ => true
  end.

(** [['open', 'closed', 'merged', 'all'].includes(v)]: SameValueZero
    against an array of strings. *)
Definition includes_str (l : list string) (v : jsval) : bool :=
  match v with
  | JStr s => existsb (String.eqb s) l
  | _ => false
  end.

(** Canonical array index: a decimal numeral without leading zeros. *)
Fixpoint digits_value (s : string) (acc : nat) : option nat :=
  match s with
  | EmptyString => Some acc
  | String c t =>
      let d := nat_of_ascii c in
      if (48 <=? d)%nat && (d <=? 57)%nat
      then digits_value t (acc * 10 + (d - 48))
      else None
  end.

Definition canonical_index (s : string) : option nat :=
  match s with
  | EmptyString => None
  | String c t =>
      if String.eqb s "0" then Some 0
      else if Ascii.eqb c "0"%char then None
      else digits_value s 0
  end.

Fixpoint assoc_lookup (k : string) (ps : list (string * jsval)) : option jsval :=
  match ps with
  | [] => None
  | (k', v) :: t => if String.eqb k k' then Some v else assoc_lookup k t
  end.

(** Property read [v.k].  Reading a property of undefined or null raises
    a TypeError.  The keys the code reads (title, body, base, head, draft,
    state, limit, number) are not properties of any built-in prototype,
    so an absent own property reads as undefined. *)
Definition get_prop (v : jsval) (k : string) : res jsval :=
  match v with
  | JUndef => Throw (TypeErr ("Cannot read properties of undefined (reading '" ++ k ++ "')"))
  | JNull => Throw (TypeErr ("Cannot read properties of null (reading '" ++ k ++ "')"))
  | JBool _ | JNum _ => Ok JUndef
  | JStr s =>
      if String.eqb k "length" then Ok (JNum (NFin (inject_Z (Z.of_nat (String.length s)))))
      else match canonical_index k with
           | Some i => match String.get i s with
                       | Some c => Ok (JStr (String c EmptyString))
                       | None => Ok JUndef
                       end
           | None => Ok JUndef
           end
  | JArr l =>
      if String.eqb k "length" then Ok (JNum (NFin (inject_Z (Z.of_nat (List.length l)))))
      else match canonical_index k with
           | Some i => match nth_error l i with
                       | Some x => Ok x
                       | None => Ok JUndef
                       end
           | None => Ok JUndef
           end
  | JObj ps =>
      match assoc_lookup k ps with
      | Some x => Ok x
      | None => Ok JUndef
      end
  end.

(** Short-circuit [a && b] and [a || b] on boolean results: [b] is only
    looked at when [a] does not decide. *)
Definition jand (a b : res bool) : res bool :=
  match a with
  | Ok true => b
  | Ok false => Ok false
  | Throw e => Throw e
  end.

Definition jor (a b : res bool) : res bool :=
  match a with
  | Ok true => Ok true
  | Ok false => b
  | Throw e => Throw e
  end.

(** A test [f(v.k)] on a property read. *)
Definition on_prop (v : jsval) (k : string) (f : jsval -> bool) : res bool :=
  match get_prop v k with
  | Ok x => Ok (f x)
  | Throw e => Throw e
  end.

Definition typeof_is (t : string) (x : jsval) : bool := String.eqb (js_typeof x) t.

Infix "&&&" := jand (at level 40, left associativity).
Infix "|||" := jor (at level 50, left associativity).

(* ------------------------------------------------------------------ *)
(** * Validators (index.ts lines 36-96) *)

Definition isValidCreatePrArgs (args : jsval) : res bool :=
  Ok (typeof_is "object" args) &&&
  Ok (negb (is_null args)) &&&
  on_prop args "title" (typeof_is "string") &&&
  (on_prop args "body" is_undefined ||| on_prop args "body" (typeof_is "string")) &&&
  (on_prop args "base" is_undefined ||| on_prop args "base" (typeof_is "string")) &&&
  (on_prop args "head" is_undefined ||| on_prop args "head" (typeof_is "string")) &&&
  (on_prop args "draft" is_undefined ||| on_prop args "draft" (typeof_is "boolean")).

Definition list_states : list string := ["open"; "closed"; "merged"; "all"].

Definition isValidListPrArgs (args : jsval) : res bool :=
  Ok (typeof_is "object" args) &&&
  Ok (negb (is_null args)) &&&
  (on_prop args "state" is_undefined ||| on_prop args "state" (includes_str list_states)) &&&
  (on_prop args "base" is_undefined ||| on_prop args "base" (typeof_is "string")) &&&
  (on_prop args "limit" is_undefined ||| on_prop args "limit" (typeof_is "number")).

Definition isValidViewPrArgs (args : jsval) : res bool :=
  Ok (typeof_is "object" args) &&&
  Ok (negb (is_null args)) &&&
  on_prop args "number" (typeof_is "number") &&&
  on_prop args "number" Number_isInteger &&&
  on_prop args "number" js_gt_zero.

Definition isValidCommentPrArgs (args : jsval) : res bool :=
  Ok (typeof_is "object" args) &&&
  Ok (negb (is_null args)) &&&
  on_prop args "number" (typeof_is "number") &&&
  on_prop args "number" Number_isInteger &&&
  on_prop args "number" js_gt_zero &&&
  on_prop args "body" (typeof_is "string").

(* ------------------------------------------------------------------ *)
(** * Error results *)

Definition bind {A B : Type} (r : res A) (f : A -> res B) : res B :=
  match r with
  | Ok a => f a
  | Throw e => Throw e
  end.

Notation "x <- r ;; k" := (bind r (fun x => k))
  (at level 61, r at next level, right associativity).

(** [new McpError(code, msg).message] in the SDK. *)
Definition mcp_message (code : Z) (msg : string) : string :=
  "MCP error " ++ Z_to_string code ++ ": " ++ msg.

Definition error_message (e : thrown) : string :=
  match e with
  | McpErr code msg => mcp_message code msg
  | TypeErr msg | PlainErr msg => msg
  | NonErr _ => ""
  end.

(** [e instanceof Error] and [e instanceof McpError]. *)
Definition is_error_instance (e : thrown) : bool :=
  match e with NonErr _ => false | _ => true end.

Definition is_mcp_error (e : thrown) : bool :=
  match e with McpErr _ _ => true | _ => false end.

(** The reply envelope. *)
Record text_block : Type := { block_type : string; text : string }.

Record tool_reply : Type := {
  content : list text_block;
  isError : option bool    (* [None]: the field is absent *)
}.

Definition text_reply (t : string) : text_block := {| block_type := "text"; text := t |}.

Section GhCli.

(** Printing of the other finite numbers: fractions, exponent notation,
    and integers of magnitude 2^53 or more, which ToString prints as the
    shortest digits that round-trip to the double, padded with zeros
    (2^64 prints as 18446744073709552000). *)
Variable format_other : Q -> string.

(** [Number.prototype.toString()] / template interpolation of a number.
    An integer of magnitude below 2^53 is the only double in its rounding
    interval with at most its number of digits, so ToString prints its
    exact decimal numeral. *)
Definition number_to_string (n : number) : string :=
  match n with
  | NNaN => "NaN"
  | NInf true => "Infinity"
  | NInf false => "-Infinity"
  | NFin q =>
      let z := Z.div (Qnum q) (Zpos (Qden q)) in
      if number_is_integer n && Z.ltb (Z.abs z) (2 ^ 53)
      then Z_to_string z
      else format_other q
  end.

(** Template interpolation [`${v}`] (ToString). *)
Fixpoint js_to_string (v : jsval) : string :=
  match v with
  | JUndef => "undefined"
  | JNull => "null"
  | JBool true => "true"
  | JBool false => "false"
  | JNum n => number_to_string n
  | JStr s => s
  | JArr l =>
      (* [Array.prototype.join(',')]: undefined and null print as empty *)
      (fix join (l : list jsval) : string :=
         match l with
         | [] => ""
         | x :: t =>
             (match x with JUndef | JNull => "" | _ => js_to_string x end) ++
             (match t with [] => "" | _ => "," ++ join t end)
         end) l
  | JObj _ => "[object Object]"
  end.

(* ------------------------------------------------------------------ *)
(** * Command builders (index.ts lines 225-231, 267-272, 308-309, 345-346) *)

Definition build_create_pr (args : jsval) : res string :=
  title <- get_prop args "title" ;;
  body <- get_prop args "body" ;;
  base <- get_prop args "base" ;;
  head <- get_prop args "head" ;;
  draft <- get_prop args "draft" ;;
  let command := "pr create --title " ++ dq ++ js_to_string title ++ dq in
  let command := if js_truthy body then command ++ " --body " ++ dq ++ js_to_string body ++ dq else command in
  let command := if js_truthy base then command ++ " --base " ++ dq ++ js_to_string base ++ dq else command in
  let command := if js_truthy head then command ++ " --head " ++ dq ++ js_to_string head ++ dq else command in
  let command := if js_truthy draft then command ++ " --draft" else command in
  Ok command.

Definition build_list_prs (args : jsval) : res string :=
  state <- get_prop args "state" ;;
  base <- get_prop args "base" ;;
  limit <- get_prop args "limit" ;;
  let command := "pr list" in
  let command := if js_truthy state then command ++ " --state " ++ js_to_string state else command in
  let command := if js_truthy base then command ++ " --base " ++ js_to_string base else command in
  let command := if js_truthy limit then command ++ " --limit " ++ js_to_string limit else command in
  Ok command.

Definition build_view_pr (args : jsval) : res string :=
  number <- get_prop args "number" ;;
  Ok ("pr view " ++ js_to_string number).

Definition build_comment_pr (args : jsval) : res string :=
  number <- get_prop args "number" ;;
  body <- get_prop args "body" ;;
  Ok ("pr comment " ++ js_to_string number ++ " --body " ++ dq ++ js_to_string body ++ dq).

(* ------------------------------------------------------------------ *)
(** * Executor and dispatcher *)

(** [execSync(line, {encoding: 'utf8'})]: the standard output, or the
    value it throws (an [Error] on non-zero exit or spawn failure). *)
Variable execSync : string -> res string.

(** [executeGhCommand] (lines 13-25), with the command lines it ran. *)
Definition executeGhCommand (command : string) : res string * list string :=
  let line := "gh " ++ command in
  (match execSync line with
   | Ok out => Ok out
   | Throw e =>
       if is_error_instance e
       then Throw (McpErr ErrorCode_InternalError ("GitHub CLI error: " ++ error_message e))
       else Throw e
   end, [line]).

(** One [case] of the CallTool handler: validate, build, execute, wrap. *)
Definition handle_call (invalid_msg : string) (valid : res bool) (command : res string)
  : res tool_reply * list string :=
  match valid with
  | Throw e => (Throw e, [])
  | Ok false => (Throw (McpErr ErrorCode_InvalidParams invalid_msg), [])
  | Ok true =>
      match command with
      | Throw e => (Throw e, [])
      | Ok command =>
          let (result, ran) := executeGhCommand command in
          match result with
          | Ok out => (Ok {| content := [text_reply out]; isError := None |}, ran)
          | Throw e =>
              if is_mcp_error e
              then (Ok {| content := [text_reply (error_message e)]; isError := Some true |}, ran)
              else (Throw e, ran)
          end
      end
  end.

(** The CallTool request handler (lines 215-380).  [arguments] is
    [JUndef] when the request carries none. *)
Definition call_tool (name : string) (arguments : jsval) : res tool_reply * list string :=
  if String.eqb name "create_pr" then
    handle_call "Invalid create_pr arguments" (isValidCreatePrArgs arguments) (build_create_pr arguments)
  else if String.eqb name "list_prs" then
    handle_call "Invalid list_prs arguments" (isValidListPrArgs arguments) (build_list_prs arguments)
  else if String.eqb name "view_pr" then
    handle_call "Invalid view_pr arguments" (isValidViewPrArgs arguments) (build_view_pr arguments)
  else if String.eqb name "comment_pr" then
    handle_call "Invalid comment_pr arguments" (isValidCommentPrArgs arguments) (build_comment_pr arguments)
  else (Throw (McpErr ErrorCode_MethodNotFound ("Unknown tool: " ++ name)), []).

End GhCli.

(* ------------------------------------------------------------------ *)
(** * The ListTools handler (index.ts lines 125-213) *)

Inductive json_type : Type := JTString | JTNumber | JTBoolean.

Record property_schema : Type := {
  p_type : json_type;
  p_enum : option (list string);    (* [None]: no [enum] key *)
  p_description : string
}.

(** An [inputSchema] of [type: 'object']; a schema without a [required]
    key has [required := []]. *)
Record input_schema : Type := {
  properties : list (string * property_schema);
  required : list string
}.

Record tool : Type := {
  t_name : string;
  t_description : string;
  t_inputSchema : input_schema
}.

Definition str_prop (d : string) : property_schema :=
  {| p_type := JTString; p_enum := None; p_description := d |}.

(** The [tools] array the ListTools handler returns. *)
Definition listed_tools : list tool := [
  {| t_name := "create_pr";
     t_description := "Create a new pull request";
     t_inputSchema :=
       {| properties := [
            ("title", str_prop "Title of the pull request");
            ("body", str_prop "Body/description of the pull request");
            ("base", str_prop "The branch into which you want your code merged");
            ("head", str_prop "The branch that contains commits for your pull request");
            ("draft", {| p_type := JTBoolean; p_enum := None;
                         p_description := "Create the pull request as a draft" |})];
          required := ["title"] |} |};
  {| t_name := "list_prs";
     t_description := "List pull requests in the current repository";
     t_inputSchema :=
       {| properties := [
            ("state", {| p_type := JTString; p_enum := Some ["open"; "closed"; "merged"; "all"];
                         p_description := "Filter by state" |});
            ("base", str_prop "Filter by base branch");
            ("limit", {| p_type := JTNumber; p_enum := None;
                         p_description := "Maximum number of pull requests to fetch" |})];
          required := [] |} |};
  {| t_name := "view_pr";
     t_description := "View a specific pull request";
     t_inputSchema :=
       {| properties := [
            ("number", {| p_type := JTNumber; p_enum := None;
                          p_description := "Pull request number" |})];
          required := ["number"] |} |};
  {| t_name := "comment_pr";
     t_description := "Add a comment to a pull request";
     t_inputSchema :=
       {| properties := [
            ("number", {| p_type := JTNumber; p_enum := None;
                          p_description := "Pull request number" |});
            ("body", str_prop "Comment text")];
          required := ["number"; "body"] |} |}
].

(* ------------------------------------------------------------------ *)
(** * Reading the code: specification-side helpers *)

(** Substring test on strings. *)
Fixpoint starts_with (p s : string) : bool :=
  match p, s with
  | EmptyString, _ => true
  | String a p', String b s' => Ascii.eqb a b && starts_with p' s'
  | String _ _, EmptyString => false
  end.

Fixpoint contains (needle hay : string) : bool :=
  starts_with needle hay ||
  match hay with
  | EmptyString => false
  | String _ t => contains needle t
  end.

(** Values on which property reads succeed (typeof 'object', not null). *)
Definition is_record (v : jsval) : bool :=
  match v with JArr _ | JObj _ => true | _ => false end.

(** The value a property read yields (undefined when it would throw). *)
Definition read (v : jsval) (k : string) : jsval :=
  match get_prop v k with Ok x => x | Throw _ => JUndef end.

(** The tool table of the dispatcher. *)
Definition tool_names : list string := ["create_pr"; "list_prs"; "view_pr"; "comment_pr"].

Definition tool_validator (name : string) : jsval -> res bool :=
  if String.eqb name "create_pr" then isValidCreatePrArgs
  else if String.eqb name "list_prs" then isValidListPrArgs
  else if String.eqb name "view_pr" then isValidViewPrArgs
  else if String.eqb name "comment_pr" then isValidCommentPrArgs
  else fun _ => Ok false.

Definition tool_builder (fo : Q -> string) (name : string) : jsval -> res string :=
  if String.eqb name "create_pr" then build_create_pr fo
  else if String.eqb name "list_prs" then build_list_prs fo
  else if String.eqb name "view_pr" then build_view_pr fo
  else if String.eqb name "comment_pr" then build_comment_pr fo
  else fun _ => Ok "".

(** A positive integer, stated on the exact value. *)
Definition positive_integer (n : number) : Prop :=
  exists q, n = NFin q /\ (Zpos (Qden q) | Qnum q)%Z /\ (0 < Qnum q)%Z.

(** The template segments of 4.2, for validated fields. *)
Definition quote (s : string) : string := dq ++ s ++ dq.

Definition opt_quoted (flag : string) (v : jsval) : string :=
  match v with
  | JStr s => if String.eqb s "" then "" else " --" ++ flag ++ " " ++ quote s
  | _ => ""
  end.

Definition opt_plain (flag : string) (v : jsval) : string :=
  match v with
  | JStr s => if String.eqb s "" then "" else " --" ++ flag ++ " " ++ s
  | _ => ""
  end.

Definition opt_draft (v : jsval) : string :=
  match v with JBool true => " --draft" | _ => "" end.

Definition opt_limit (fo : Q -> string) (v : jsval) : string :=
  match v with
  | JNum n => if js_truthy (JNum n) then " --limit " ++ number_to_string fo n else ""
  | _ => ""
  end.

Definition create_template (fo : Q -> string) (args : jsval) (title : string) : string :=
  "pr create --title " ++ quote title ++ opt_quoted "body" (read args "body") ++
  opt_quoted "base" (read args "base") ++ opt_quoted "head" (read args "head") ++
  opt_draft (read args "draft").

Definition list_template (fo : Q -> string) (args : jsval) : string :=
  "pr list" ++ opt_plain "state" (read args "state") ++ opt_plain "base" (read args "base") ++
  opt_limit fo (read args "limit").

(** JSON Schema conformance for the subset the catalogue uses: an object
    (not an array, not null) that has every [required] property, and whose
    present properties have the declared type and, with [enum], one of
    the listed values; other properties are allowed. *)
Definition conforms_type (p : property_schema) (x : jsval) : bool :=
  match p_type p, x with
  | JTString, JStr s =>
      match p_enum p with None => true | Some l => existsb (String.eqb s) l end
  | JTNumber, JNum _ => true
  | JTBoolean, JBool _ => true
  | _, _ => false
  end.

Definition conforms (sch : input_schema) (v : jsval) : bool :=
  match v with
  | JObj _ =>
      forallb (fun k => negb (is_undefined (read v k))) (required sch) &&
      forallb (fun kp => is_undefined (read v (fst kp)) || conforms_type (snd kp) (read v (fst kp)))
              (properties sch)
  | _ => false
  end.

(** The published schema of a listed tool. *)
Definition tool_schema (name : string) : input_schema :=
  match find (fun t => String.eqb (t_name t) name) listed_tools with
  | Some t => t_inputSchema t
  | None => {| properties := []; required := [] |}
  end.

(** The two reply envelopes of a call that ran gh. *)
Definition plain_reply (out : string) : tool_reply :=
  {| content := [text_reply out]; isError := None |}.

Definition flagged_reply (m : string) : tool_reply :=
  {| content := [text_reply (mcp_message ErrorCode_InternalError ("GitHub CLI error: " ++ m))];
     isError := Some true |}.

(** The argument properties the validators and builders read. *)
Definition read_keys : list string :=
  ["title"; "body"; "base"; "head"; "draft"; "state"; "limit"; "number"].

(** A string of decimal digits only. *)
Fixpoint all_digits (s : string) : bool :=
  match s with
  | EmptyString => true
  | String c t => (48 <=? nat_of_ascii c)%nat && (nat_of_ascii c <=? 57)%nat && all_digits t
  end.

(* ------------------------------------------------------------------ *)
(** * General lemmas *)

Lemma string_app_assoc (a b c : string) : (a ++ b) ++ c = a ++ (b ++ c).
Proof. induction a as [|x a IH]; simpl; [reflexivity | now rewrite IH]. Qed.

Lemma string_app_nil_r (a : string) : a ++ "" = a.
Proof. induction a as [|x a IH]; simpl; [reflexivity | now rewrite IH]. Qed.

Lemma starts_with_app (p s : string) : starts_with p (p ++ s) = true.
Proof.
  induction p as [|x p IH]; simpl; [reflexivity|].
  now rewrite Ascii.eqb_refl, IH.
Qed.

Lemma contains_app_mid (a m b : string) : contains m (a ++ m ++ b) = true.
Proof.
  induction a as [|x a IH]; simpl.
  - destruct m as [|y m]; [destruct b; reflexivity|]. simpl.
    now rewrite Ascii.eqb_refl, starts_with_app.
  - rewrite IH. apply orb_true_r.
Qed.

Lemma jand_ok (a b : bool) : jand (Ok a) (Ok b) = Ok (a && b).
Proof. now destruct a. Qed.

Lemma jor_ok (a b : bool) : jor (Ok a) (Ok b) = Ok (a || b).
Proof. now destruct a. Qed.

Ltac destruct_matches_in H :=
  repeat match type of H with
         | context [match ?x with _ => _ end] => destruct x
         end.

Lemma get_prop_record (v : jsval) (k : string) :
  is_record v = true -> get_prop v k = Ok (read v k).
Proof.
  intros Hr. unfold read. destruct (get_prop v k) as [x|e] eqn:E; [reflexivity|].
  exfalso. destruct v; try discriminate Hr; simpl in E; destruct_matches_in E; discriminate E.
Qed.

Lemma on_prop_record (v : jsval) (k : string) (f : jsval -> bool) :
  is_record v = true -> on_prop v k f = Ok (f (read v k)).
Proof. intros Hr. unfold on_prop. now rewrite (get_prop_record v k Hr). Qed.

Ltac record_cases v :=
  destruct v; try reflexivity;
  repeat rewrite on_prop_record by reflexivity;
  repeat rewrite ?jor_ok, ?jand_ok; reflexivity.

Lemma isValidCreatePrArgs_eq (v : jsval) :
  isValidCreatePrArgs v =
  Ok (is_record v && typeof_is "string" (read v "title") &&
      (is_undefined (read v "body") || typeof_is "string" (read v "body")) &&
      (is_undefined (read v "base") || typeof_is "string" (read v "base")) &&
      (is_undefined (read v "head") || typeof_is "string" (read v "head")) &&
      (is_undefined (read v "draft") || typeof_is "boolean" (read v "draft"))).
Proof. unfold isValidCreatePrArgs; record_cases v. Qed.

Lemma isValidListPrArgs_eq (v : jsval) :
  isValidListPrArgs v =
  Ok (is_record v &&
      (is_undefined (read v "state") || includes_str list_states (read v "state")) &&
      (is_undefined (read v "base") || typeof_is "string" (read v "base")) &&
      (is_undefined (read v "limit") || typeof_is "number" (read v "limit"))).
Proof. unfold isValidListPrArgs; record_cases v. Qed.

Lemma isValidViewPrArgs_eq (v : jsval) :
  isValidViewPrArgs v =
  Ok (is_record v && typeof_is "number" (read v "number") &&
      Number_isInteger (read v "number") && js_gt_zero (read v "number")).
Proof. unfold isValidViewPrArgs; record_cases v. Qed.

Lemma isValidCommentPrArgs_eq (v : jsval) :
  isValidCommentPrArgs v =
  Ok (is_record v && typeof_is "number" (read v "number") &&
      Number_isInteger (read v "number") && js_gt_zero (read v "number") &&
      typeof_is "string" (read v "body")).
Proof. unfold isValidCommentPrArgs; record_cases v. Qed.

Lemma number_is_integer_spec (q : Q) :
  number_is_integer (NFin q) = true <-> (Zpos (Qden q) | Qnum q)%Z.
Proof.
  simpl. rewrite Z.eqb_eq. apply Z.rem_divide. discriminate.
Qed.

Lemma positive_integer_spec (v : jsval) :
  typeof_is "number" v && Number_isInteger v && js_gt_zero v = true <->
  exists n, v = JNum n /\ positive_integer n.
Proof.
  split.
  - destruct v as [| |b|n|s|l|ps]; try discriminate. intros H.
    exists n. split; [reflexivity|].
    destruct n as [q| |pos]; try discriminate.
    apply andb_true_iff in H as [H Hgt]. apply andb_true_iff in H as [_ Hint].
    exists q. split; [reflexivity|]. split.
    + now apply number_is_integer_spec.
    + simpl in Hgt. now apply Z.ltb_lt.
  - intros [n [-> [q [-> [Hd Hp]]]]].
    apply andb_true_iff. split; [apply andb_true_iff; split|].
    + reflexivity.
    + exact (proj2 (number_is_integer_spec q) Hd).
    + simpl. now apply Z.ltb_lt.
Qed.

(* ------------------------------------------------------------------ *)
(** * Claims about the validators *)

(** C8: each of the four validators is total: on every input, including
    undefined, null, primitives and values missing fields, it returns a
    boolean and never raises; a required field that is absent or not of
    its type, or an optional field present with the wrong type, yields
    false. *)
Theorem validators_total_never_raise : forall v : jsval,
  (exists b, isValidCreatePrArgs v = Ok b) /\
  (exists b, isValidListPrArgs v = Ok b) /\
  (exists b, isValidViewPrArgs v = Ok b) /\
  (exists b, isValidCommentPrArgs v = Ok b) /\
  ((forall s, read v "title" <> JStr s) -> isValidCreatePrArgs v = Ok false) /\
  (forall k, In k ["body"; "base"; "head"] -> read v k <> JUndef ->
     (forall s, read v k <> JStr s) -> isValidCreatePrArgs v = Ok false) /\
  (read v "draft" <> JUndef -> (forall b, read v "draft" <> JBool b) ->
     isValidCreatePrArgs v = Ok false) /\
  (read v "base" <> JUndef -> (forall s, read v "base" <> JStr s) ->
     isValidListPrArgs v = Ok false) /\
  (read v "limit" <> JUndef -> (forall n, read v "limit" <> JNum n) ->
     isValidListPrArgs v = Ok false) /\
  ((forall n, read v "number" <> JNum n) ->
     isValidViewPrArgs v = Ok false /\ isValidCommentPrArgs v = Ok false) /\
  ((forall s, read v "body" <> JStr s) -> isValidCommentPrArgs v = Ok false).
Proof.
  intros v.
  rewrite isValidCreatePrArgs_eq, isValidListPrArgs_eq, isValidViewPrArgs_eq,
    isValidCommentPrArgs_eq.
  split; [eexists; reflexivity|]. split; [eexists; reflexivity|].
  split; [eexists; reflexivity|]. split; [eexists; reflexivity|].
  split.
  { intros H. destruct (read v "title"); try (rewrite !andb_false_r; reflexivity).
    exfalso. eapply H. reflexivity. }
  split.
  { intros k Hk Hu Hs. simpl in Hk.
    destruct Hk as [<-|[<-|[<-|[]]]];
      destruct (read v _); try (exfalso; (apply Hu; reflexivity) || (eapply Hs; reflexivity));
      rewrite ?andb_false_r; f_equal; rewrite ?andb_false_r; simpl;
      rewrite ?andb_false_r; reflexivity. }
  split.
  { intros Hu Hb. destruct (read v "draft");
      try (exfalso; (apply Hu; reflexivity) || (eapply Hb; reflexivity));
      rewrite !andb_false_r; reflexivity. }
  split.
  { intros Hu Hs. destruct (read v "base");
      try (exfalso; (apply Hu; reflexivity) || (eapply Hs; reflexivity));
      simpl; rewrite ?andb_false_r; reflexivity. }
  split.
  { intros Hu Hn. destruct (read v "limit");
      try (exfalso; (apply Hu; reflexivity) || (eapply Hn; reflexivity));
      rewrite !andb_false_r; reflexivity. }
  split.
  { intros Hn. destruct (read v "number");
      try (exfalso; eapply Hn; reflexivity);
      rewrite ?andb_false_r; split; reflexivity. }
  { intros Hs. destruct (read v "body");
      try (exfalso; eapply Hs; reflexivity);
      rewrite ?andb_false_r; reflexivity. }
Qed.

(** C5: the list_prs validator is false whenever [state] is present and
    not one of the strings open, closed, merged, all; it is true for each
    of these four values when the other fields are absent or well-typed. *)
Theorem list_prs_state_enum :
  (forall args,
     read args "state" <> JUndef ->
     (forall s, In s ["open"; "closed"; "merged"; "all"] -> read args "state" <> JStr s) ->
     isValidListPrArgs args = Ok false) /\
  (forall args s,
     In s ["open"; "closed"; "merged"; "all"] ->
     is_record args = true ->
     read args "state" = JStr s ->
     (read args "base" = JUndef \/ exists b, read args "base" = JStr b) ->
     (read args "limit" = JUndef \/ exists n, read args "limit" = JNum n) ->
     isValidListPrArgs args = Ok true).
Proof.
  split.
  - intros args Hu Hs. rewrite isValidListPrArgs_eq.
    destruct (read args "state") as [| |b|n|s|l|ps] eqn:E;
      try (exfalso; now apply Hu); try (rewrite !andb_false_r; reflexivity).
    cbn [includes_str is_undefined orb]. destruct (existsb (String.eqb s) list_states) eqn:Ex.
    + exfalso. apply existsb_exists in Ex as [x [Hin Heq]].
      apply String.eqb_eq in Heq. subst x. exact (Hs s Hin eq_refl).
    + rewrite !andb_false_r. reflexivity.
  - intros args s Hin Hr Hs Hb Hl. rewrite isValidListPrArgs_eq, Hr, Hs.
    assert (Hi : includes_str list_states (JStr s) = true).
    { unfold includes_str. apply existsb_exists. exists s. split; [exact Hin | apply String.eqb_refl]. }
    rewrite Hi. simpl.
    destruct Hb as [-> | [b ->]]; destruct Hl as [-> | [n ->]]; reflexivity.
Qed.

(** C6: the view_pr and comment_pr validators are true exactly when the
    arguments are an object whose [number] is a positive integer (and, for
    comment_pr, whose [body] is a string); so they are false whenever
    [number] is not a number, is not an integer, or is at most zero. *)
Theorem number_validators_positive_integer : forall args,
  (isValidViewPrArgs args = Ok true <->
     is_record args = true /\ exists n, read args "number" = JNum n /\ positive_integer n) /\
  (isValidCommentPrArgs args = Ok true <->
     is_record args = true /\ (exists n, read args "number" = JNum n /\ positive_integer n) /\
     exists s, read args "body" = JStr s) /\
  ((forall n, read args "number" <> JNum n) ->
     isValidViewPrArgs args = Ok false /\ isValidCommentPrArgs args = Ok false) /\
  (forall q, read args "number" = JNum (NFin q) -> (Qnum q <= 0)%Z ->
     isValidViewPrArgs args = Ok false /\ isValidCommentPrArgs args = Ok false) /\
  (forall n, read args "number" = JNum n -> number_is_integer n = false ->
     isValidViewPrArgs args = Ok false /\ isValidCommentPrArgs args = Ok false).
Proof.
  intros args. rewrite isValidViewPrArgs_eq, isValidCommentPrArgs_eq.
  split.
  { split.
    - intros H. injection H as H. rewrite <- !andb_assoc in H.
      apply andb_true_iff in H as [Hr H]. split; [exact Hr|].
      apply positive_integer_spec. rewrite !andb_assoc in H. exact H.
    - intros [Hr Hp]. apply positive_integer_spec in Hp.
      rewrite Hr. simpl. rewrite <- !andb_assoc. rewrite andb_assoc, Hp. reflexivity. }
  split.
  { split.
    - intros H. injection H as H. apply andb_true_iff in H as [H Hb].
      rewrite <- !andb_assoc in H. apply andb_true_iff in H as [Hr H].
      split; [exact Hr|]. split.
      + apply positive_integer_spec. rewrite !andb_assoc in H. exact H.
      + destruct (read args "body"); try discriminate Hb. eexists; reflexivity.
    - intros [Hr [Hp [s Hs]]]. apply positive_integer_spec in Hp.
      rewrite Hr, Hs. simpl. rewrite andb_true_r, <- !andb_assoc, andb_assoc, Hp.
      reflexivity. }
  split.
  { intros Hn. destruct (read args "number");
      try (exfalso; eapply Hn; reflexivity); rewrite ?andb_false_r; split; reflexivity. }
  split.
  { intros q Hq Hle. rewrite Hq. simpl.
    replace (Z.ltb 0 (Qnum q)) with false by (symmetry; apply Z.ltb_ge; exact Hle).
    rewrite !andb_false_r. split; reflexivity. }
  { intros n Hq Hi. rewrite Hq. simpl Number_isInteger. rewrite Hi.
    rewrite !andb_false_r. split; reflexivity. }
Qed.

(* ------------------------------------------------------------------ *)
(** * The builders on validated arguments *)

Definition absent_or_string (x : jsval) : Prop := x = JUndef \/ exists s, x = JStr s.

Lemma opt_typeof_shape (t : string) (x : jsval) :
  is_undefined x || typeof_is t x = true ->
  x = JUndef \/ typeof_is t x = true.
Proof. destruct x; simpl; auto. Qed.

Lemma typeof_string_shape (x : jsval) : typeof_is "string" x = true -> exists s, x = JStr s.
Proof. destruct x; try discriminate. eexists; reflexivity. Qed.

Lemma typeof_boolean_shape (x : jsval) : typeof_is "boolean" x = true -> exists b, x = JBool b.
Proof. destruct x; try discriminate. eexists; reflexivity. Qed.

Lemma typeof_number_shape (x : jsval) : typeof_is "number" x = true -> exists n, x = JNum n.
Proof. destruct x; try discriminate. eexists; reflexivity. Qed.

Lemma opt_string_shape (x : jsval) :
  is_undefined x || typeof_is "string" x = true -> absent_or_string x.
Proof.
  intros H. apply opt_typeof_shape in H as [H|H]; [now left|].
  right. now apply typeof_string_shape.
Qed.

Lemma create_valid_shapes (v : jsval) :
  isValidCreatePrArgs v = Ok true ->
  is_record v = true /\ (exists t, read v "title" = JStr t) /\
  absent_or_string (read v "body") /\ absent_or_string (read v "base") /\
  absent_or_string (read v "head") /\
  (read v "draft" = JUndef \/ exists b, read v "draft" = JBool b).
Proof.
  rewrite isValidCreatePrArgs_eq. intros H. injection H as H.
  repeat (apply andb_true_iff in H as [H ?]).
  repeat split; auto using opt_string_shape, typeof_string_shape.
  match goal with Hd : context [read v "draft"] |- _ =>
    apply opt_typeof_shape in Hd as [Hd|Hd]; [now left | right; now apply typeof_boolean_shape] end.
Qed.

Lemma list_valid_shapes (v : jsval) :
  isValidListPrArgs v = Ok true ->
  is_record v = true /\
  (read v "state" = JUndef \/ exists s, In s list_states /\ read v "state" = JStr s) /\
  absent_or_string (read v "base") /\
  (read v "limit" = JUndef \/ exists n, read v "limit" = JNum n).
Proof.
  rewrite isValidListPrArgs_eq. intros H. injection H as H.
  repeat (apply andb_true_iff in H as [H ?]).
  repeat split; auto using opt_string_shape.
  - destruct (read v "state") eqn:E; try discriminate; try (now left).
    right. exists s. split; [|reflexivity].
    match goal with Hs : context [includes_str] |- _ => cbn [is_undefined includes_str orb] in Hs; apply existsb_exists in Hs as [x [Hin Hx]] end.
    apply String.eqb_eq in Hx. now subst.
  - match goal with Hl : context [read v "limit"] |- _ =>
      apply opt_typeof_shape in Hl as [Hl|Hl]; [now left | right; now apply typeof_number_shape] end.
Qed.

Lemma number_valid_shapes (v : jsval) :
  (isValidViewPrArgs v = Ok true \/ isValidCommentPrArgs v = Ok true) ->
  is_record v = true /\ exists n, read v "number" = JNum n.
Proof.
  rewrite isValidViewPrArgs_eq, isValidCommentPrArgs_eq. intros [H|H]; injection H as H;
    repeat (apply andb_true_iff in H as [H ?]);
    split; auto using typeof_number_shape.
Qed.

Lemma build_create_pr_record (fo : Q -> string) (v : jsval) :
  is_record v = true ->
  build_create_pr fo v =
  Ok (let title := read v "title" in let body := read v "body" in
      let base := read v "base" in let head := read v "head" in
      let draft := read v "draft" in
      let command := "pr create --title " ++ dq ++ js_to_string fo title ++ dq in
      let command := if js_truthy body then command ++ " --body " ++ dq ++ js_to_string fo body ++ dq else command in
      let command := if js_truthy base then command ++ " --base " ++ dq ++ js_to_string fo base ++ dq else command in
      let command := if js_truthy head then command ++ " --head " ++ dq ++ js_to_string fo head ++ dq else command in
      if js_truthy draft then command ++ " --draft" else command).
Proof. intros Hr. unfold build_create_pr. rewrite !(get_prop_record v _ Hr). reflexivity. Qed.

Lemma build_list_prs_record (fo : Q -> string) (v : jsval) :
  is_record v = true ->
  build_list_prs fo v =
  Ok (let state := read v "state" in let base := read v "base" in
      let limit := read v "limit" in
      let command := "pr list" in
      let command := if js_truthy state then command ++ " --state " ++ js_to_string fo state else command in
      let command := if js_truthy base then command ++ " --base " ++ js_to_string fo base else command in
      if js_truthy limit then command ++ " --limit " ++ js_to_string fo limit else command).
Proof. intros Hr. unfold build_list_prs. rewrite !(get_prop_record v _ Hr). reflexivity. Qed.

Lemma build_view_pr_record (fo : Q -> string) (v : jsval) :
  is_record v = true ->
  build_view_pr fo v = Ok ("pr view " ++ js_to_string fo (read v "number")).
Proof. intros Hr. unfold build_view_pr. rewrite (get_prop_record v _ Hr). reflexivity. Qed.

Lemma build_comment_pr_record (fo : Q -> string) (v : jsval) :
  is_record v = true ->
  build_comment_pr fo v =
  Ok ("pr comment " ++ js_to_string fo (read v "number") ++ " --body " ++ dq ++
      js_to_string fo (read v "body") ++ dq).
Proof. intros Hr. unfold build_comment_pr. rewrite !(get_prop_record v _ Hr). reflexivity. Qed.

Ltac norm_str := unfold quote; rewrite ?string_app_assoc, ?string_app_nil_r; simpl; reflexivity.

Lemma build_create_pr_template (fo : Q -> string) (v : jsval) :
  isValidCreatePrArgs v = Ok true ->
  exists t, read v "title" = JStr t /\ build_create_pr fo v = Ok (create_template fo v t).
Proof.
  intros H. apply create_valid_shapes in H as (Hr & [t Ht] & Hb & Hba & Hh & Hd).
  exists t. split; [exact Ht|]. rewrite (build_create_pr_record fo v Hr).
  unfold create_template. cbv zeta. rewrite Ht.
  destruct Hb as [-> | [b ->]]; destruct Hba as [-> | [ba ->]];
  destruct Hh as [-> | [h ->]]; destruct Hd as [-> | [[|] ->]];
  cbn [js_truthy js_to_string opt_quoted opt_draft];
  try destruct (String.eqb b "");
  try destruct (String.eqb ba "");
  try destruct (String.eqb h ""); cbn [negb]; f_equal; norm_str.
Qed.

Lemma build_list_prs_template (fo : Q -> string) (v : jsval) :
  isValidListPrArgs v = Ok true -> build_list_prs fo v = Ok (list_template fo v).
Proof.
  intros H. apply list_valid_shapes in H as (Hr & Hs & Hb & Hl).
  rewrite (build_list_prs_record fo v Hr). unfold list_template. cbv zeta.
  destruct Hs as [-> | [s [_ ->]]]; destruct Hb as [-> | [b ->]];
  destruct Hl as [-> | [n ->]];
  cbn [js_to_string opt_plain opt_limit];
  try (change (js_truthy (JStr s)) with (negb (String.eqb s ""));
       destruct (String.eqb s ""));
  try (change (js_truthy (JStr b)) with (negb (String.eqb b ""));
       destruct (String.eqb b ""));
  try destruct (js_truthy (JNum n)); cbn [negb js_truthy]; f_equal; norm_str.
Qed.

Lemma build_view_pr_template (fo : Q -> string) (v : jsval) :
  isValidViewPrArgs v = Ok true ->
  exists n, read v "number" = JNum n /\ build_view_pr fo v = Ok ("pr view " ++ number_to_string fo n).
Proof.
  intros H. destruct (number_valid_shapes v (or_introl H)) as [Hr [n Hn]].
  exists n. split; [exact Hn|]. now rewrite (build_view_pr_record fo v Hr), Hn.
Qed.

Lemma build_comment_pr_template (fo : Q -> string) (v : jsval) :
  isValidCommentPrArgs v = Ok true ->
  exists n s, read v "number" = JNum n /\ read v "body" = JStr s /\
    build_comment_pr fo v = Ok ("pr comment " ++ number_to_string fo n ++ " --body " ++ quote s).
Proof.
  intros H. destruct (number_valid_shapes v (or_intror H)) as [Hr [n Hn]].
  assert (Hb : exists s, read v "body" = JStr s).
  { rewrite isValidCommentPrArgs_eq in H. injection H as H.
    apply andb_true_iff in H as [_ H]. now apply typeof_string_shape. }
  destruct Hb as [s Hs]. exists n, s. split; [exact Hn|]. split; [exact Hs|].
  rewrite (build_comment_pr_record fo v Hr), Hn, Hs. reflexivity.
Qed.

(** Integers of magnitude below 2^53 print as their decimal numeral. *)
Lemma number_to_string_int (fo : Q -> string) (z : Z) :
  (Z.abs z < 2 ^ 53)%Z -> number_to_string fo (NFin (inject_Z z)) = Z_to_string z.
Proof.
  intros Hz. unfold number_to_string, number_is_integer. simpl Qnum. simpl Qden.
  rewrite Z.div_1_r, Z.rem_1_r. simpl Z.eqb. cbn [andb]. rewrite (proj2 (Z.ltb_lt _ _) Hz). reflexivity.
Qed.

Lemma if_app_r (b : bool) (c s : string) :
  (if b then c ++ s else c) = c ++ (if b then s else "").
Proof. destruct b; [reflexivity | now rewrite string_app_nil_r]. Qed.

(* ------------------------------------------------------------------ *)
(** * Claims about the command builders *)

(** C2: caller-supplied text for quoted flags (create_pr's title, body,
    base, head; comment_pr's body) is put between double quotes exactly
    as given, with no escaping; a title holding a double quote and shell
    metacharacters reaches the command string unchanged. *)
Theorem quoted_fields_verbatim : forall (fo : Q -> string) (args_c args_m : jsval),
  isValidCreatePrArgs args_c = Ok true ->
  isValidCommentPrArgs args_m = Ok true ->
  (exists t rest, read args_c "title" = JStr t /\
     build_create_pr fo args_c = Ok ("pr create --title " ++ dq ++ t ++ dq ++ rest) /\
     forall k s, In k ["body"; "base"; "head"] -> read args_c k = JStr s -> s <> "" ->
       contains (" --" ++ k ++ " " ++ dq ++ s ++ dq) rest = true) /\
  (exists n s, read args_m "number" = JNum n /\ read args_m "body" = JStr s /\
     build_comment_pr fo args_m = Ok ("pr comment " ++ number_to_string fo n ++ " --body " ++ dq ++ s ++ dq)) /\
  (exists t c, contains dq t = true /\ contains ";" t = true /\
     isValidCreatePrArgs (JObj [("title", JStr t)]) = Ok true /\
     build_create_pr fo (JObj [("title", JStr t)]) = Ok c /\
     contains (dq ++ t ++ dq) c = true).
Proof.
  intros fo args_c args_m Hc Hm.
  split; [|split].
  - destruct (build_create_pr_template fo args_c Hc) as [t [Ht Hb]].
    exists t, (opt_quoted "body" (read args_c "body") ++ opt_quoted "base" (read args_c "base") ++
               opt_quoted "head" (read args_c "head") ++ opt_draft (read args_c "draft")).
    split; [exact Ht|]. split.
    + rewrite Hb. unfold create_template, quote. now rewrite !string_app_assoc.
    + intros k s Hk Hs Hne.
      assert (Hseg : opt_quoted k (JStr s) = " --" ++ k ++ " " ++ dq ++ s ++ dq).
      { simpl. apply String.eqb_neq in Hne. now rewrite Hne. }
      simpl in Hk. destruct Hk as [<-|[<-|[<-|[]]]]; rewrite Hs, Hseg.
      * apply (contains_app_mid "").
      * apply contains_app_mid.
      * rewrite <- (string_app_assoc (opt_quoted "body" (read args_c "body"))).
        apply contains_app_mid.
  - destruct (build_comment_pr_template fo args_m Hm) as [n [s [Hn [Hs Hb]]]].
    exists n, s. split; [exact Hn|]. split; [exact Hs|]. rewrite Hb. reflexivity.
  - exists ("x" ++ dq ++ "; rm -rf ~ #"),
      ("pr create --title " ++ dq ++ ("x" ++ dq ++ "; rm -rf ~ #") ++ dq).
    split; [reflexivity|]. split; [reflexivity|]. split; [reflexivity|]. split.
    + reflexivity.
    + reflexivity.
Qed.

(** C4: on validated arguments every builder produces the template of
    4.2, flags in template order (create_pr: body, base, head, draft;
    list_prs: state, base, limit); on the examples: create_pr with only
    title Add X gives pr create --title "Add X", list_prs with state open
    and limit 5 gives pr list --state open --limit 5, view_pr with number
    n gives pr view n (n a safe integer, below 2^53, printed as its
    decimal numeral; larger numbers as ToString prints them), comment_pr with 123 and LGTM! gives
    pr comment 123 --body "LGTM!". *)
Theorem command_suffix_templates : forall (fo : Q -> string) (args : jsval),
  (isValidCreatePrArgs args = Ok true ->
     exists t, read args "title" = JStr t /\ build_create_pr fo args = Ok (create_template fo args t)) /\
  (isValidListPrArgs args = Ok true -> build_list_prs fo args = Ok (list_template fo args)) /\
  (isValidViewPrArgs args = Ok true ->
     exists n, read args "number" = JNum n /\ build_view_pr fo args = Ok ("pr view " ++ number_to_string fo n)) /\
  (isValidCommentPrArgs args = Ok true ->
     exists n s, read args "number" = JNum n /\ read args "body" = JStr s /\
       build_comment_pr fo args = Ok ("pr comment " ++ number_to_string fo n ++ " --body " ++ quote s)) /\
  (isValidCreatePrArgs (JObj [("title", JStr "Add X")]) = Ok true /\
   build_create_pr fo (JObj [("title", JStr "Add X")]) = Ok ("pr create --title " ++ quote "Add X")) /\
  (isValidListPrArgs (JObj [("state", JStr "open"); ("limit", JNum (NFin 5))]) = Ok true /\
   build_list_prs fo (JObj [("state", JStr "open"); ("limit", JNum (NFin 5))]) =
     Ok "pr list --state open --limit 5") /\
  (forall z, (0 < z < 2 ^ 53)%Z ->
     isValidViewPrArgs (JObj [("number", JNum (NFin (inject_Z z)))]) = Ok true /\
     build_view_pr fo (JObj [("number", JNum (NFin (inject_Z z)))]) = Ok ("pr view " ++ Z_to_string z)) /\
  (isValidCommentPrArgs (JObj [("number", JNum (NFin 123)); ("body", JStr "LGTM!")]) = Ok true /\
   build_comment_pr fo (JObj [("number", JNum (NFin 123)); ("body", JStr "LGTM!")]) =
     Ok ("pr comment 123 --body " ++ quote "LGTM!")).
Proof.
  intros fo args.
  split; [apply build_create_pr_template|].
  split; [apply build_list_prs_template|].
  split; [apply build_view_pr_template|].
  split; [apply build_comment_pr_template|].
  split; [split; reflexivity|].
  split; [split; reflexivity|].
  split.
  - intros z [Hlo Hhi]. split.
    + rewrite isValidViewPrArgs_eq. cbn [read get_prop assoc_lookup String.eqb Ascii.eqb Bool.eqb].
      unfold typeof_is, Number_isInteger, number_is_integer, js_gt_zero, number_gt0.
      simpl Qnum. simpl Qden. rewrite Z.rem_1_r. simpl Z.eqb.
      rewrite (proj2 (Z.ltb_lt 0 z) Hlo). reflexivity.
    + rewrite (build_view_pr_record fo (JObj [("number", JNum (NFin (inject_Z z)))]) eq_refl). cbn [read get_prop assoc_lookup String.eqb Ascii.eqb Bool.eqb js_to_string].
      rewrite number_to_string_int; [reflexivity|]. rewrite Z.abs_eq by lia. exact Hhi.
  - split; reflexivity.
Qed.

(** C3, as stated (supplying an optional field appends its flag exactly
    once), fails: a create_pr call whose body is the empty string passes
    validation, and its command has no --body flag. *)
Lemma optional_flag_supplied_but_omitted :
  isValidCreatePrArgs (JObj [("title", JStr "T"); ("body", JStr "")]) = Ok true /\
  build_create_pr (fun _ => "") (JObj [("title", JStr "T"); ("body", JStr "")]) =
    Ok ("pr create --title " ++ quote "T") /\
  contains "--body" ("pr create --title " ++ quote "T") = false.
Proof. split; [reflexivity | split; reflexivity]. Qed.

(** C3, amended: for create_pr and list_prs and every validated argument
    set, each optional field's flag segment is appended by the builder at
    most once, in template order, and exactly when the field's value is
    truthy; an absent field, an empty string, draft false, or a limit of
    0 or NaN append nothing. *)
Theorem optional_flags_on_truthy_values : forall (fo : Q -> string) (args : jsval),
  (isValidCreatePrArgs args = Ok true ->
     exists t, read args "title" = JStr t /\
     build_create_pr fo args =
       Ok ("pr create --title " ++ quote t ++
           (if js_truthy (read args "body") then " --body " ++ quote (js_to_string fo (read args "body")) else "") ++
           (if js_truthy (read args "base") then " --base " ++ quote (js_to_string fo (read args "base")) else "") ++
           (if js_truthy (read args "head") then " --head " ++ quote (js_to_string fo (read args "head")) else "") ++
           (if js_truthy (read args "draft") then " --draft" else ""))) /\
  (isValidListPrArgs args = Ok true ->
     build_list_prs fo args =
       Ok ("pr list" ++
           (if js_truthy (read args "state") then " --state " ++ js_to_string fo (read args "state") else "") ++
           (if js_truthy (read args "base") then " --base " ++ js_to_string fo (read args "base") else "") ++
           (if js_truthy (read args "limit") then " --limit " ++ js_to_string fo (read args "limit") else ""))) /\
  js_truthy JUndef = false /\
  (forall s, js_truthy (JStr s) = false <-> s = "") /\
  (forall b, js_truthy (JBool b) = b) /\
  (forall q, js_truthy (JNum (NFin q)) = false <-> Qnum q = 0%Z) /\
  js_truthy (JNum NNaN) = false.
Proof.
  intros fo args. split; [|split].
  - intros H. destruct (create_valid_shapes args H) as (Hr & [t Ht] & _).
    exists t. split; [exact Ht|].
    rewrite (build_create_pr_record fo args Hr). cbv zeta. rewrite !if_app_r, Ht.
    f_equal. unfold quote. rewrite !string_app_assoc. reflexivity.
  - intros H. destruct (list_valid_shapes args H) as (Hr & _).
    rewrite (build_list_prs_record fo args Hr). cbv zeta. rewrite !if_app_r.
    f_equal. rewrite !string_app_assoc. reflexivity.
  - split; [reflexivity|]. split.
    { intros s. simpl. rewrite negb_false_iff. apply String.eqb_eq. }
    split; [reflexivity|]. split; [|reflexivity].
    intros q. simpl. rewrite negb_false_iff. apply Z.eqb_eq.
Qed.

(** C9: optional flags are gated on truthiness, not presence: a
    validated create_pr call with body the empty string gets no --body
    flag, a validated list_prs call with limit 0 gets no --limit flag,
    while comment_pr, whose body is required, appends --body even for the
    empty string, giving pr comment n --body followed by two quotes. *)
Theorem falsy_optional_values_omit_flag : forall (fo : Q -> string) (args : jsval),
  (isValidCreatePrArgs args = Ok true -> read args "body" = JStr "" ->
     exists t, read args "title" = JStr t /\
     build_create_pr fo args =
       Ok ("pr create --title " ++ quote t ++ opt_quoted "base" (read args "base") ++
           opt_quoted "head" (read args "head") ++ opt_draft (read args "draft"))) /\
  (isValidListPrArgs args = Ok true ->
     (exists q, read args "limit" = JNum (NFin q) /\ Qnum q = 0%Z) ->
     build_list_prs fo args =
       Ok ("pr list" ++ opt_plain "state" (read args "state") ++ opt_plain "base" (read args "base"))) /\
  (isValidCommentPrArgs args = Ok true -> read args "body" = JStr "" ->
     exists n, read args "number" = JNum n /\
     build_comment_pr fo args = Ok ("pr comment " ++ number_to_string fo n ++ " --body " ++ dq ++ dq)) /\
  (build_create_pr fo (JObj [("title", JStr "T"); ("body", JStr "")]) = Ok ("pr create --title " ++ quote "T")) /\
  (build_list_prs fo (JObj [("limit", JNum (NFin 0))]) = Ok "pr list") /\
  (build_comment_pr fo (JObj [("number", JNum (NFin 7)); ("body", JStr "")]) =
     Ok ("pr comment 7 --body " ++ dq ++ dq)).
Proof.
  intros fo args. split; [|split; [|split]].
  - intros H Hb. destruct (build_create_pr_template fo args H) as [t [Ht Heq]].
    exists t. split; [exact Ht|]. rewrite Heq. unfold create_template. now rewrite Hb.
  - intros H [q [Hl Hq]]. rewrite (build_list_prs_template fo args H).
    unfold list_template. rewrite Hl. cbn [opt_limit js_truthy]. rewrite Hq.
    cbn [Z.eqb negb]. now rewrite string_app_nil_r.
  - intros H Hb. destruct (build_comment_pr_template fo args H) as [n [s [Hn [Hs Heq]]]].
    exists n. split; [exact Hn|]. rewrite Heq. rewrite Hs in Hb. injection Hb as ->. reflexivity.
  - split; [reflexivity|]. split; reflexivity.
Qed.

(** C10: the validators' object test admits arrays: the empty array
    passes the list_prs validator (every field is absent and optional),
    and a list_prs call with it as arguments runs gh pr list. *)
Theorem empty_array_passes_list_prs : forall (fo : Q -> string) (exec : string -> res string),
  isValidListPrArgs (JArr []) = Ok true /\
  build_list_prs fo (JArr []) = Ok "pr list" /\
  snd (call_tool fo exec "list_prs" (JArr [])) = ["gh pr list"] /\
  (forall out, exec "gh pr list" = Ok out ->
     fst (call_tool fo exec "list_prs" (JArr [])) =
       Ok {| content := [text_reply out]; isError := None |}).
Proof.
  intros fo exec. split; [reflexivity|]. split; [reflexivity|].
  unfold call_tool. simpl String.eqb. cbv iota beta.
  unfold handle_call, executeGhCommand. simpl.
  split.
  - destruct (exec "gh pr list") as [out|e]; simpl; [reflexivity|].
    destruct e; reflexivity.
  - intros out Hout. rewrite Hout. reflexivity.
Qed.

(* ------------------------------------------------------------------ *)
(** * The dispatcher *)

Lemma contains_suffix (a m : string) : contains m (a ++ m) = true.
Proof. pose proof (contains_app_mid a m "") as H. now rewrite string_app_nil_r in H. Qed.

Lemma mcp_message_embeds (code : Z) (prefix msg : string) :
  contains msg (mcp_message code (prefix ++ msg)) = true.
Proof. unfold mcp_message. rewrite <- !string_app_assoc. apply contains_suffix. Qed.

Lemma call_tool_create (fo : Q -> string) (exec : string -> res string) (args : jsval) :
  call_tool fo exec "create_pr" args =
  handle_call exec "Invalid create_pr arguments" (isValidCreatePrArgs args) (build_create_pr fo args).
Proof. reflexivity. Qed.

Lemma call_tool_list (fo : Q -> string) (exec : string -> res string) (args : jsval) :
  call_tool fo exec "list_prs" args =
  handle_call exec "Invalid list_prs arguments" (isValidListPrArgs args) (build_list_prs fo args).
Proof. reflexivity. Qed.

Lemma call_tool_view (fo : Q -> string) (exec : string -> res string) (args : jsval) :
  call_tool fo exec "view_pr" args =
  handle_call exec "Invalid view_pr arguments" (isValidViewPrArgs args) (build_view_pr fo args).
Proof. reflexivity. Qed.

Lemma call_tool_comment (fo : Q -> string) (exec : string -> res string) (args : jsval) :
  call_tool fo exec "comment_pr" args =
  handle_call exec "Invalid comment_pr arguments" (isValidCommentPrArgs args) (build_comment_pr fo args).
Proof. reflexivity. Qed.

Lemma handle_call_exec_failure (exec : string -> res string) (msg cmd : string) (e : thrown) :
  exec ("gh " ++ cmd) = Throw e -> is_error_instance e = true ->
  handle_call exec msg (Ok true) (Ok cmd) =
  (Ok {| content := [text_reply (mcp_message ErrorCode_InternalError ("GitHub CLI error: " ++ error_message e))];
         isError := Some true |}, ["gh " ++ cmd]).
Proof.
  intros He Hi. unfold handle_call, executeGhCommand. rewrite He, Hi. reflexivity.
Qed.

Lemma handle_call_invalid (exec : string -> res string) (msg : string) (command : res string) :
  handle_call exec msg (Ok false) command = (Throw (McpErr ErrorCode_InvalidParams msg), []).
Proof. reflexivity. Qed.

Lemma validator_record (name : string) (args : jsval) :
  In name tool_names -> tool_validator name args = Ok true -> is_record args = true.
Proof.
  intros Hin H. simpl in Hin.
  destruct Hin as [<-|[<-|[<-|[<-|[]]]]]; unfold tool_validator in H; simpl in H;
    [rewrite isValidCreatePrArgs_eq in H | rewrite isValidListPrArgs_eq in H
    | rewrite isValidViewPrArgs_eq in H | rewrite isValidCommentPrArgs_eq in H];
    injection H as H; destruct (is_record args); [reflexivity| | reflexivity| | reflexivity| | reflexivity|];
    discriminate H.
Qed.

(** C1: for a call on one of the four tools whose arguments pass
    validation, a failure of the executor (any [Error] thrown by
    execSync: non-zero exit, spawn failure) becomes an ordinary reply
    with isError true and a single text block embedding the error text,
    not a protocol failure; a call whose arguments fail validation
    raises the protocol-level InvalidParams failure naming the tool and
    runs no command. *)
Theorem exec_failure_flagged_validation_failure_raised :
  forall (fo : Q -> string) (exec : string -> res string) (name : string) (args : jsval),
  In name tool_names ->
  (tool_validator name args = Ok true ->
     exists cmd, tool_builder fo name args = Ok cmd /\
     forall e, exec ("gh " ++ cmd) = Throw e -> is_error_instance e = true ->
       call_tool fo exec name args =
         (Ok {| content := [text_reply (mcp_message ErrorCode_InternalError
                                          ("GitHub CLI error: " ++ error_message e))];
                isError := Some true |}, ["gh " ++ cmd]) /\
       contains (error_message e)
         (mcp_message ErrorCode_InternalError ("GitHub CLI error: " ++ error_message e)) = true) /\
  (tool_validator name args = Ok false ->
     call_tool fo exec name args =
       (Throw (McpErr ErrorCode_InvalidParams ("Invalid " ++ name ++ " arguments")), [])).
Proof.
  intros fo exec name args Hin. split.
  - intros Hv. pose proof (validator_record name args Hin Hv) as Hr.
    simpl in Hin. destruct Hin as [<-|[<-|[<-|[<-|[]]]]].
    + change (tool_validator "create_pr") with isValidCreatePrArgs in Hv.
      change (tool_builder fo "create_pr") with (build_create_pr fo).
      rewrite call_tool_create, (build_create_pr_record fo args Hr), Hv.
      eexists; split; [reflexivity|]. intros e He Hi.
      split; [apply (handle_call_exec_failure exec _ _ e He Hi) | apply mcp_message_embeds].
    + change (tool_validator "list_prs") with isValidListPrArgs in Hv.
      change (tool_builder fo "list_prs") with (build_list_prs fo).
      rewrite call_tool_list, (build_list_prs_record fo args Hr), Hv.
      eexists; split; [reflexivity|]. intros e He Hi.
      split; [apply (handle_call_exec_failure exec _ _ e He Hi) | apply mcp_message_embeds].
    + change (tool_validator "view_pr") with isValidViewPrArgs in Hv.
      change (tool_builder fo "view_pr") with (build_view_pr fo).
      rewrite call_tool_view, (build_view_pr_record fo args Hr), Hv.
      eexists; split; [reflexivity|]. intros e He Hi.
      split; [apply (handle_call_exec_failure exec _ _ e He Hi) | apply mcp_message_embeds].
    + change (tool_validator "comment_pr") with isValidCommentPrArgs in Hv.
      change (tool_builder fo "comment_pr") with (build_comment_pr fo).
      rewrite call_tool_comment, (build_comment_pr_record fo args Hr), Hv.
      eexists; split; [reflexivity|]. intros e He Hi.
      split; [apply (handle_call_exec_failure exec _ _ e He Hi) | apply mcp_message_embeds].
  - intros Hv. simpl in Hin. destruct Hin as [<-|[<-|[<-|[<-|[]]]]].
    + change (tool_validator "create_pr") with isValidCreatePrArgs in Hv.
      rewrite call_tool_create, Hv. reflexivity.
    + change (tool_validator "list_prs") with isValidListPrArgs in Hv.
      rewrite call_tool_list, Hv. reflexivity.
    + change (tool_validator "view_pr") with isValidViewPrArgs in Hv.
      rewrite call_tool_view, Hv. reflexivity.
    + change (tool_validator "comment_pr") with isValidCommentPrArgs in Hv.
      rewrite call_tool_comment, Hv. reflexivity.
Qed.

(** C7: a call naming a tool outside create_pr, list_prs, view_pr,
    comment_pr raises the protocol-level MethodNotFound failure naming
    the tool, whatever the arguments and the executor; no flagged reply,
    and no command is run. *)
Theorem unknown_tool_method_not_found :
  forall (fo : Q -> string) (exec : string -> res string) (name : string) (args : jsval),
  ~ In name tool_names ->
  call_tool fo exec name args =
    (Throw (McpErr ErrorCode_MethodNotFound ("Unknown tool: " ++ name)), []) /\
  contains name (error_message (McpErr ErrorCode_MethodNotFound ("Unknown tool: " ++ name))) = true.
Proof.
  intros fo exec name args Hn. split.
  - unfold call_tool.
    destruct (String.eqb name "create_pr") eqn:E1;
      [apply String.eqb_eq in E1; subst; exfalso; apply Hn; simpl; tauto|].
    destruct (String.eqb name "list_prs") eqn:E2;
      [apply String.eqb_eq in E2; subst; exfalso; apply Hn; simpl; tauto|].
    destruct (String.eqb name "view_pr") eqn:E3;
      [apply String.eqb_eq in E3; subst; exfalso; apply Hn; simpl; tauto|].
    destruct (String.eqb name "comment_pr") eqn:E4;
      [apply String.eqb_eq in E4; subst; exfalso; apply Hn; simpl; tauto|].
    reflexivity.
  - apply mcp_message_embeds.
Qed.

(* ------------------------------------------------------------------ *)
(** * Witnesses *)

Definition no_format : Q -> string := fun _ => "".

Definition failing_gh : string -> res string :=
  fun line => Throw (PlainErr ("Command failed: " ++ line)).

(** A gh that exits normally and echoes its command line. *)
Definition echo_gh : string -> res string := fun line => Ok ("ran: " ++ line).

(** An executor that throws a value that is not an [Error]. *)
Definition non_error_gh : string -> res string := fun _ => Throw (NonErr (JStr "boom")).

(** C1 at view_pr 123 with a gh that exits non-zero. *)
Lemma exec_failure_flagged_witness :
  In "view_pr" tool_names /\
  call_tool no_format failing_gh "view_pr" (JObj [("number", JNum (NFin 123))]) =
    (Ok {| content := [text_reply (mcp_message ErrorCode_InternalError
                                     ("GitHub CLI error: Command failed: gh pr view 123"))];
           isError := Some true |}, ["gh pr view 123"]).
Proof.
  assert (Hin : In "view_pr" tool_names) by (simpl; tauto).
  split; [exact Hin|].
  destruct (proj1 (exec_failure_flagged_validation_failure_raised no_format failing_gh "view_pr"
                     (JObj [("number", JNum (NFin 123))]) Hin) eq_refl) as [cmd [Hcmd Hk]].
  vm_compute in Hcmd. injection Hcmd as <-.
  exact (proj1 (Hk _ eq_refl eq_refl)).
Defined.

(** C2 at a create_pr title with a quote and a comment_pr body. *)
Lemma quoted_fields_verbatim_witness :
  isValidCreatePrArgs (JObj [("title", JStr ("a" ++ dq ++ "b")); ("body", JStr "c")]) = Ok true /\
  isValidCommentPrArgs (JObj [("number", JNum (NFin 5)); ("body", JStr "hi")]) = Ok true /\
  build_comment_pr no_format (JObj [("number", JNum (NFin 5)); ("body", JStr "hi")]) =
    Ok ("pr comment 5 --body " ++ dq ++ "hi" ++ dq).
Proof.
  split; [reflexivity|]. split; [reflexivity|].
  destruct (quoted_fields_verbatim no_format
              (JObj [("title", JStr ("a" ++ dq ++ "b")); ("body", JStr "c")])
              (JObj [("number", JNum (NFin 5)); ("body", JStr "hi")]) eq_refl eq_refl)
    as [_ [[n [s [Hn [Hs Hb]]]] _]].
  rewrite Hb. vm_compute in Hn, Hs. injection Hn as <-. injection Hs as <-. reflexivity.
Defined.

(** C7 at the tool name merge_pr. *)
Lemma unknown_tool_witness :
  ~ In "merge_pr" tool_names /\
  call_tool no_format failing_gh "merge_pr" JNull =
    (Throw (McpErr ErrorCode_MethodNotFound "Unknown tool: merge_pr"), []).
Proof.
  assert (Hn : ~ In "merge_pr" tool_names).
  { simpl. intros [H|[H|[H|[H|[]]]]]; discriminate H. }
  split; [exact Hn|].
  exact (proj1 (unknown_tool_method_not_found no_format failing_gh "merge_pr" JNull Hn)).
Defined.

(* ------------------------------------------------------------------ *)
(** * The catalogue against the validators *)

Ltac schema_cbn :=
  cbn [tool_schema find listed_tools t_name t_inputSchema String.eqb Ascii.eqb Bool.eqb
       properties required forallb fst snd conforms_type p_type p_enum str_prop
       andb orb negb is_undefined].

(** X1: on JSON objects, the create_pr and list_prs validators accept
    exactly the arguments that conform to the inputSchema the server
    publishes for the tool; view_pr and comment_pr accept exactly the
    conforming arguments whose number is a positive integer, a
    constraint the schema does not state.  Arrays never conform, yet the
    list_prs validator accepts every array. *)
Theorem validators_match_published_schema : forall ps : list (string * jsval),
  isValidCreatePrArgs (JObj ps) = Ok (conforms (tool_schema "create_pr") (JObj ps)) /\
  isValidListPrArgs (JObj ps) = Ok (conforms (tool_schema "list_prs") (JObj ps)) /\
  (isValidViewPrArgs (JObj ps) = Ok true <->
     conforms (tool_schema "view_pr") (JObj ps) = true /\
     exists n, read (JObj ps) "number" = JNum n /\ positive_integer n) /\
  (isValidCommentPrArgs (JObj ps) = Ok true <->
     conforms (tool_schema "comment_pr") (JObj ps) = true /\
     exists n, read (JObj ps) "number" = JNum n /\ positive_integer n) /\
  (forall l, conforms (tool_schema "list_prs") (JArr l) = false /\ isValidListPrArgs (JArr l) = Ok true).
Proof.
  intros ps. split; [|split; [|split; [|split]]].
  - rewrite isValidCreatePrArgs_eq. unfold conforms. schema_cbn.
    set (t := read (JObj ps) "title"); set (b := read (JObj ps) "body");
    set (ba := read (JObj ps) "base"); set (h := read (JObj ps) "head");
    set (d := read (JObj ps) "draft").
    destruct t; try reflexivity; destruct b; try reflexivity; destruct ba; try reflexivity;
    destruct h; try reflexivity; destruct d; reflexivity.
  - rewrite isValidListPrArgs_eq. unfold conforms. schema_cbn.
    set (st := read (JObj ps) "state"); set (ba := read (JObj ps) "base");
    set (l := read (JObj ps) "limit").
    destruct st; try reflexivity;
      try (unfold includes_str, list_states; destruct (existsb _ _));
      destruct ba; try reflexivity; destruct l; reflexivity.
  - rewrite isValidViewPrArgs_eq. unfold conforms. schema_cbn.
    rewrite <- positive_integer_spec.
    set (n := read (JObj ps) "number").
    destruct n; cbn [is_record typeof_is js_typeof String.eqb Ascii.eqb Bool.eqb andb];
      split; try (intros H; injection H as H; discriminate H);
      try (intros [H _]; discriminate H); try tauto.
    + intros H. injection H as H. split; [reflexivity | exact H].
    + intros [_ H]. now rewrite H.
  - rewrite isValidCommentPrArgs_eq. unfold conforms. schema_cbn.
    rewrite <- positive_integer_spec.
    set (n := read (JObj ps) "number"). set (b := read (JObj ps) "body").
    destruct n; cbn [is_record typeof_is js_typeof String.eqb Ascii.eqb Bool.eqb andb];
      split; try (intros H; injection H as H; discriminate H);
      try (intros [H _]; discriminate H); try tauto;
      destruct b; cbn [typeof_is js_typeof String.eqb Ascii.eqb Bool.eqb andb negb is_undefined];
      rewrite ?andb_true_r, ?andb_false_r;
      try (intros H; injection H as H; discriminate H);
      try (intros [H _]; discriminate H);
      try (intros H; injection H as H; split; [reflexivity | exact H]);
      try (intros [_ H]; now rewrite H).
  - intros l. split; reflexivity.
Qed.

(* ------------------------------------------------------------------ *)
(** * The dispatcher on every call *)

Lemma call_tool_cases (fo : Q -> string) (exec : string -> res string) (name : string) (args : jsval) :
  (In name tool_names /\
   call_tool fo exec name args =
     handle_call exec ("Invalid " ++ name ++ " arguments") (tool_validator name args) (tool_builder fo name args)) \/
  (~ In name tool_names /\
   call_tool fo exec name args = (Throw (McpErr ErrorCode_MethodNotFound ("Unknown tool: " ++ name)), [])).
Proof.
  unfold call_tool.
  destruct (String.eqb name "create_pr") eqn:E1;
    [apply String.eqb_eq in E1; subst; left; split; [simpl; tauto | reflexivity]|].
  destruct (String.eqb name "list_prs") eqn:E2;
    [apply String.eqb_eq in E2; subst; left; split; [simpl; tauto | reflexivity]|].
  destruct (String.eqb name "view_pr") eqn:E3;
    [apply String.eqb_eq in E3; subst; left; split; [simpl; tauto | reflexivity]|].
  destruct (String.eqb name "comment_pr") eqn:E4;
    [apply String.eqb_eq in E4; subst; left; split; [simpl; tauto | reflexivity]|].
  right. split; [|reflexivity].
  simpl. intros [H|[H|[H|[H|[]]]]]; subst;
    [rewrite String.eqb_refl in E1 | rewrite String.eqb_refl in E2
    | rewrite String.eqb_refl in E3 | rewrite String.eqb_refl in E4]; discriminate.
Qed.

Lemma tool_validator_total (name : string) (args : jsval) :
  exists b, tool_validator name args = Ok b.
Proof.
  unfold tool_validator.
  destruct (String.eqb name "create_pr"); [rewrite isValidCreatePrArgs_eq; eexists; reflexivity|].
  destruct (String.eqb name "list_prs"); [rewrite isValidListPrArgs_eq; eexists; reflexivity|].
  destruct (String.eqb name "view_pr"); [rewrite isValidViewPrArgs_eq; eexists; reflexivity|].
  destruct (String.eqb name "comment_pr"); [rewrite isValidCommentPrArgs_eq; eexists; reflexivity|].
  eexists; reflexivity.
Qed.

(** On validated arguments the builder succeeds, with one of the four
    verb prefixes of the command. *)
Lemma tool_builder_valid (fo : Q -> string) (name : string) (args : jsval) :
  In name tool_names -> tool_validator name args = Ok true ->
  exists verb rest, In verb ["pr create --title "; "pr list"; "pr view "; "pr comment "] /\
    tool_builder fo name args = Ok (verb ++ rest).
Proof.
  intros Hin Hv. pose proof (validator_record name args Hin Hv) as Hr.
  simpl in Hin. destruct Hin as [<-|[<-|[<-|[<-|[]]]]].
  - change (tool_builder fo "create_pr") with (build_create_pr fo).
    rewrite (build_create_pr_record fo args Hr). cbv zeta. rewrite !if_app_r.
    eexists "pr create --title ", _. split; [simpl; tauto|].
    rewrite !string_app_assoc. reflexivity.
  - change (tool_builder fo "list_prs") with (build_list_prs fo).
    rewrite (build_list_prs_record fo args Hr). cbv zeta. rewrite !if_app_r.
    eexists "pr list", _. split; [simpl; tauto|].
    rewrite !string_app_assoc. reflexivity.
  - change (tool_builder fo "view_pr") with (build_view_pr fo).
    rewrite (build_view_pr_record fo args Hr).
    eexists "pr view ", _. split; [simpl; tauto | reflexivity].
  - change (tool_builder fo "comment_pr") with (build_comment_pr fo).
    rewrite (build_comment_pr_record fo args Hr).
    eexists "pr comment ", _. split; [simpl; tauto | reflexivity].
Qed.

Lemma handle_call_ran (exec : string -> res string) (msg cmd : string) :
  snd (handle_call exec msg (Ok true) (Ok cmd)) = ["gh " ++ cmd].
Proof.
  unfold handle_call, executeGhCommand. destruct (exec ("gh " ++ cmd)) as [out|e]; [reflexivity|].
  destruct (is_error_instance e); [reflexivity|]. destruct (is_mcp_error e); reflexivity.
Qed.

(** X2: when the tool is listed, the arguments validate and gh exits
    normally, the reply is the command's standard output, unmodified, in
    one text block, without the isError field; exactly that one command
    was run. *)
Theorem exec_success_plain_reply :
  forall (fo : Q -> string) (exec : string -> res string) (name : string) (args : jsval),
  In name tool_names -> tool_validator name args = Ok true ->
  exists cmd, tool_builder fo name args = Ok cmd /\
  forall out, exec ("gh " ++ cmd) = Ok out ->
    call_tool fo exec name args = (Ok {| content := [text_reply out]; isError := None |}, ["gh " ++ cmd]).
Proof.
  intros fo exec name args Hin Hv.
  destruct (tool_builder_valid fo name args Hin Hv) as [verb [rest [_ Hb]]].
  exists (verb ++ rest). split; [exact Hb|]. intros out Hout.
  destruct (call_tool_cases fo exec name args) as [[_ ->]|[Hn _]]; [|contradiction].
  rewrite Hv, Hb. unfold handle_call, executeGhCommand. rewrite Hout. reflexivity.
Qed.

(** X3: a thrown value that is not an [Error] escapes both catch
    blocks: the call fails with that same value (no flagged reply), after
    running the one command. *)
Theorem exec_non_error_rethrown :
  forall (fo : Q -> string) (exec : string -> res string) (name : string) (args : jsval),
  In name tool_names -> tool_validator name args = Ok true ->
  exists cmd, tool_builder fo name args = Ok cmd /\
  forall x, exec ("gh " ++ cmd) = Throw (NonErr x) ->
    call_tool fo exec name args = (Throw (NonErr x), ["gh " ++ cmd]).
Proof.
  intros fo exec name args Hin Hv.
  destruct (tool_builder_valid fo name args Hin Hv) as [verb [rest [_ Hb]]].
  exists (verb ++ rest). split; [exact Hb|]. intros x Hx.
  destruct (call_tool_cases fo exec name args) as [[_ ->]|[Hn _]]; [|contradiction].
  rewrite Hv, Hb. unfold handle_call, executeGhCommand. rewrite Hx. reflexivity.
Qed.

(** X4: every call runs at most one command: exactly one, gh followed
    by the builder's output, when the tool is listed and its arguments
    validate, and none otherwise (unknown tool, rejected arguments). *)
Theorem at_most_one_command :
  forall (fo : Q -> string) (exec : string -> res string) (name : string) (args : jsval),
  ((In name tool_names /\ tool_validator name args = Ok true) ->
     exists cmd, tool_builder fo name args = Ok cmd /\ snd (call_tool fo exec name args) = ["gh " ++ cmd]) /\
  (~ (In name tool_names /\ tool_validator name args = Ok true) ->
     snd (call_tool fo exec name args) = []).
Proof.
  intros fo exec name args. split.
  - intros [Hin Hv]. destruct (tool_builder_valid fo name args Hin Hv) as [verb [rest [_ Hb]]].
    exists (verb ++ rest). split; [exact Hb|].
    destruct (call_tool_cases fo exec name args) as [[_ ->]|[Hn _]]; [|contradiction].
    rewrite Hv, Hb. apply handle_call_ran.
  - intros Hnot. destruct (call_tool_cases fo exec name args) as [[Hin ->]|[_ ->]]; [|reflexivity].
    destruct (tool_validator_total name args) as [[|] Hv]; [exfalso; tauto|].
    rewrite Hv. reflexivity.
Qed.

(** X5: every command line handed to execSync begins with gh pr create
    --title, gh pr list, gh pr view or gh pr comment: the tool name and
    arguments select only among these four prefixes.  The rest of the
    line carries field values unescaped and is run by a shell, so this
    says nothing about what that shell goes on to run. *)
Theorem commands_are_pr_subcommands :
  forall (fo : Q -> string) (exec : string -> res string) (name : string) (args : jsval) (line : string),
  In line (snd (call_tool fo exec name args)) ->
  exists verb, In verb ["gh pr create --title "; "gh pr list"; "gh pr view "; "gh pr comment "] /\
    starts_with verb line = true.
Proof.
  intros fo exec name args line Hl.
  destruct (call_tool_cases fo exec name args) as [[Hin Hc]|[_ Hc]]; rewrite Hc in Hl;
    [|destruct Hl].
  destruct (tool_validator_total name args) as [[|] Hv]; rewrite Hv in Hl; [|destruct Hl].
  destruct (tool_builder_valid fo name args Hin Hv) as [verb [rest [Hverb Hb]]].
  rewrite Hb, handle_call_ran in Hl. destruct Hl as [<-|[]].
  exists ("gh " ++ verb). split.
  - simpl in Hverb. destruct Hverb as [<-|[<-|[<-|[<-|[]]]]]; simpl; tauto.
  - rewrite <- string_app_assoc. apply starts_with_app.
Qed.

Lemma handle_call_valid_cases (exec : string -> res string) (msg cmd : string) :
  (exists out, exec ("gh " ++ cmd) = Ok out /\
     handle_call exec msg (Ok true) (Ok cmd) = (Ok (plain_reply out), ["gh " ++ cmd])) \/
  (exists e, exec ("gh " ++ cmd) = Throw e /\ is_error_instance e = true /\
     handle_call exec msg (Ok true) (Ok cmd) = (Ok (flagged_reply (error_message e)), ["gh " ++ cmd])) \/
  (exists x, exec ("gh " ++ cmd) = Throw (NonErr x) /\
     handle_call exec msg (Ok true) (Ok cmd) = (Throw (NonErr x), ["gh " ++ cmd])).
Proof.
  unfold handle_call, executeGhCommand.
  destruct (exec ("gh " ++ cmd)) as [out|e] eqn:E.
  - left. exists out. split; reflexivity.
  - destruct e as [c m|m|m|x].
    + right; left. exists (McpErr c m). repeat split; reflexivity.
    + right; left. exists (TypeErr m). repeat split; reflexivity.
    + right; left. exists (PlainErr m). repeat split; reflexivity.
    + right; right. exists x. split; reflexivity.
Qed.

(** The outcome of any call, by case. *)
Lemma call_tool_outcomes (fo : Q -> string) (exec : string -> res string) (name : string) (args : jsval) :
  (~ In name tool_names /\
   call_tool fo exec name args = (Throw (McpErr ErrorCode_MethodNotFound ("Unknown tool: " ++ name)), [])) \/
  (In name tool_names /\ tool_validator name args = Ok false /\
   call_tool fo exec name args = (Throw (McpErr ErrorCode_InvalidParams ("Invalid " ++ name ++ " arguments")), [])) \/
  (In name tool_names /\ tool_validator name args = Ok true /\
   exists cmd, tool_builder fo name args = Ok cmd /\
   ((exists out, exec ("gh " ++ cmd) = Ok out /\
       call_tool fo exec name args = (Ok (plain_reply out), ["gh " ++ cmd])) \/
    (exists e, exec ("gh " ++ cmd) = Throw e /\ is_error_instance e = true /\
       call_tool fo exec name args = (Ok (flagged_reply (error_message e)), ["gh " ++ cmd])) \/
    (exists x, exec ("gh " ++ cmd) = Throw (NonErr x) /\
       call_tool fo exec name args = (Throw (NonErr x), ["gh " ++ cmd])))).
Proof.
  destruct (call_tool_cases fo exec name args) as [[Hin Hc]|[Hn Hc]]; [|left; tauto].
  right. destruct (tool_validator_total name args) as [[|] Hv].
  - right. split; [exact Hin|]. split; [exact Hv|].
    destruct (tool_builder_valid fo name args Hin Hv) as [verb [rest [_ Hb]]].
    exists (verb ++ rest). split; [exact Hb|]. rewrite Hc, Hv, Hb.
    apply handle_call_valid_cases.
  - left. split; [exact Hin|]. split; [exact Hv|]. rewrite Hc, Hv. reflexivity.
Qed.

(** X6: every ordinary reply holds exactly one text block and is one of
    two kinds: the standard output of the one command run, with no
    isError field; or, when that command threw an [Error], isError true
    and the text "MCP error -32603: GitHub CLI error: " followed by the
    error's message.  isError is never false. *)
Theorem reply_envelope_shape :
  forall (fo : Q -> string) (exec : string -> res string) (name : string) (args : jsval) (r : tool_reply),
  fst (call_tool fo exec name args) = Ok r ->
  (exists line out, snd (call_tool fo exec name args) = [line] /\ exec line = Ok out /\
     r = {| content := [text_reply out]; isError := None |}) \/
  (exists line e, snd (call_tool fo exec name args) = [line] /\ exec line = Throw e /\
     is_error_instance e = true /\
     r = {| content := [text_reply ("MCP error -32603: GitHub CLI error: " ++ error_message e)];
            isError := Some true |}).
Proof.
  intros fo exec name args r Hr.
  destruct (call_tool_outcomes fo exec name args)
    as [[_ Hc]|[[_ [_ Hc]]|[_ [_ [cmd [_ [[out [He Hc]]|[[e [He [Hi Hc]]]|[x [He Hc]]]]]]]]]];
    rewrite Hc in Hr |- *; simpl in Hr; try discriminate Hr; injection Hr as <-.
  - left. exists ("gh " ++ cmd), out. repeat split; assumption.
  - right. exists ("gh " ++ cmd), e. repeat split; assumption.
Qed.

(** X7: a call fails at protocol level only with InvalidParams naming the
    tool or MethodNotFound naming it, both before any command runs, or
    with a non-[Error] value thrown by execSync, passed on unchanged; the
    InternalError made by executeGhCommand never escapes. *)
Theorem protocol_failures :
  forall (fo : Q -> string) (exec : string -> res string) (name : string) (args : jsval) (e : thrown),
  fst (call_tool fo exec name args) = Throw e ->
  (e = McpErr ErrorCode_InvalidParams ("Invalid " ++ name ++ " arguments") /\
     snd (call_tool fo exec name args) = []) \/
  (e = McpErr ErrorCode_MethodNotFound ("Unknown tool: " ++ name) /\
     snd (call_tool fo exec name args) = []) \/
  (exists x line, e = NonErr x /\ snd (call_tool fo exec name args) = [line] /\
     exec line = Throw (NonErr x)).
Proof.
  intros fo exec name args e He.
  destruct (call_tool_outcomes fo exec name args)
    as [[_ Hc]|[[_ [_ Hc]]|[_ [_ [cmd [_ [[out [Hx Hc]]|[[e' [Hx [Hi Hc]]]|[x [Hx Hc]]]]]]]]]];
    rewrite Hc in He |- *; simpl in He; try discriminate He; injection He as <-.
  - right; left. split; reflexivity.
  - left. split; reflexivity.
  - right; right. exists x, ("gh " ++ cmd). repeat split; assumption.
Qed.

(** Both validators agree on JS objects that agree on the keys they read,
    and so do the builders. *)
Lemma tool_functions_read_keys (fo : Q -> string) (name : string) (ps1 ps2 : list (string * jsval)) :
  In name tool_names ->
  (forall k, In k read_keys -> read (JObj ps1) k = read (JObj ps2) k) ->
  tool_validator name (JObj ps1) = tool_validator name (JObj ps2) /\
  tool_builder fo name (JObj ps1) = tool_builder fo name (JObj ps2).
Proof.
  intros Hin H. simpl in Hin. destruct Hin as [<-|[<-|[<-|[<-|[]]]]].
  - change (tool_validator "create_pr") with isValidCreatePrArgs.
    change (tool_builder fo "create_pr") with (build_create_pr fo).
    rewrite !isValidCreatePrArgs_eq, !(build_create_pr_record fo (JObj _)) by reflexivity.
    rewrite !H by (simpl; tauto). split; reflexivity.
  - change (tool_validator "list_prs") with isValidListPrArgs.
    change (tool_builder fo "list_prs") with (build_list_prs fo).
    rewrite !isValidListPrArgs_eq, !(build_list_prs_record fo (JObj _)) by reflexivity.
    rewrite !H by (simpl; tauto). split; reflexivity.
  - change (tool_validator "view_pr") with isValidViewPrArgs.
    change (tool_builder fo "view_pr") with (build_view_pr fo).
    rewrite !isValidViewPrArgs_eq, !(build_view_pr_record fo (JObj _)) by reflexivity.
    rewrite !H by (simpl; tauto). split; reflexivity.
  - change (tool_validator "comment_pr") with isValidCommentPrArgs.
    change (tool_builder fo "comment_pr") with (build_comment_pr fo).
    rewrite !isValidCommentPrArgs_eq, !(build_comment_pr_record fo (JObj _)) by reflexivity.
    rewrite !H by (simpl; tauto). split; reflexivity.
Qed.

(** X8: a call depends on its argument object only through the eight
    properties title, body, base, head, draft, state, limit and number:
    two objects that agree on them give the same reply, error and
    commands run, whatever other properties they carry. *)
Theorem unread_properties_ignored :
  forall (fo : Q -> string) (exec : string -> res string) (name : string) (ps1 ps2 : list (string * jsval)),
  (forall k, In k read_keys -> read (JObj ps1) k = read (JObj ps2) k) ->
  call_tool fo exec name (JObj ps1) = call_tool fo exec name (JObj ps2).
Proof.
  intros fo exec name ps1 ps2 H.
  destruct (call_tool_cases fo exec name (JObj ps1)) as [[Hin H1]|[Hn H1]];
  destruct (call_tool_cases fo exec name (JObj ps2)) as [[Hin' H2]|[Hn' H2]];
    try contradiction; rewrite H1, H2; [|reflexivity].
  destruct (tool_functions_read_keys fo name ps1 ps2 Hin H) as [-> ->]. reflexivity.
Qed.

Lemma digit_char_digit (d : N) :
  (d < 10)%N ->
  (48 <=? nat_of_ascii (digit_char d))%nat && (nat_of_ascii (digit_char d) <=? 57)%nat = true.
Proof.
  intros Hd. unfold digit_char. rewrite Ascii.nat_ascii_embedding by lia.
  apply andb_true_iff. split; apply Nat.leb_le; lia.
Qed.

Lemma pos_digits_all (fuel : nat) (p : positive) (acc : string) :
  all_digits acc = true -> all_digits (pos_digits fuel p acc) = true.
Proof.
  revert p acc. induction fuel as [|f IH]; intros p acc Ha; [exact Ha|].
  cbn [pos_digits]. destruct (N.div_eucl (Npos p) 10) as [q r] eqn:E.
  assert (Hr : (r < 10)%N).
  { replace r with (N.modulo (Npos p) 10) by (unfold N.modulo; rewrite E; reflexivity).
    apply N.mod_lt. discriminate. }
  assert (Hc : all_digits (String (digit_char r) acc) = true).
  { cbn [all_digits]. rewrite (digit_char_digit r Hr). exact Ha. }
  destruct q as [|q']; [exact Hc | apply IH; exact Hc].
Qed.

Lemma pos_digits_nonempty (fuel : nat) (p : positive) (acc : string) :
  acc <> "" -> pos_digits fuel p acc <> "".
Proof.
  revert p acc. induction fuel as [|f IH]; intros p acc Ha; [exact Ha|].
  cbn [pos_digits]. destruct (N.div_eucl (Npos p) 10) as [q r].
  destruct q as [|q']; [discriminate | apply IH; discriminate].
Qed.

Lemma Z_to_string_pos_digits (p : positive) :
  Z_to_string (Zpos p) <> "" /\ all_digits (Z_to_string (Zpos p)) = true.
Proof.
  unfold Z_to_string. split; [|apply pos_digits_all; reflexivity].
  assert (Hs : exists f, Pos.size_nat p = S f) by (destruct p; eexists; reflexivity).
  destruct Hs as [f ->]. cbn [pos_digits]. destruct (N.div_eucl (Npos p) 10) as [q r].
  destruct q as [|q']; [discriminate | apply pos_digits_nonempty; discriminate].
Qed.

(** X9: the number validated for view_pr or comment_pr, when below 2^53,
    is interpolated as a non-empty string of decimal digits (no sign,
    point, exponent or other character), so the command is "pr view "
    followed by digits only, and "pr comment " followed by digits and the
    quoted body. *)
Theorem pr_number_prints_as_digits :
  forall (fo : Q -> string) (args : jsval) (q : Q),
  (isValidViewPrArgs args = Ok true \/ isValidCommentPrArgs args = Ok true) ->
  read args "number" = JNum (NFin q) -> Qlt q (inject_Z (2 ^ 53)) ->
  exists d, d <> "" /\ all_digits d = true /\
    js_to_string fo (read args "number") = d /\
    (isValidViewPrArgs args = Ok true -> build_view_pr fo args = Ok ("pr view " ++ d)) /\
    (isValidCommentPrArgs args = Ok true ->
       exists s, read args "body" = JStr s /\
         build_comment_pr fo args = Ok ("pr comment " ++ d ++ " --body " ++ quote s)).
Proof.
  intros fo args q Hv Hn Hlt. unfold Qlt in Hlt. simpl Qnum in Hlt. simpl Qden in Hlt.
  assert (Hp : number_is_integer (NFin q) = true /\ (0 < Qnum q)%Z).
  { destruct Hv as [H|H];
      [rewrite isValidViewPrArgs_eq in H | rewrite isValidCommentPrArgs_eq in H];
      injection H as H; rewrite Hn in H;
      repeat (apply andb_true_iff in H as [H ?]);
      split; try assumption; apply Z.ltb_lt; assumption. }
  destruct Hp as [Hint Hpos].
  pose proof (proj1 (number_is_integer_spec q) Hint) as [k Hk].
  assert (Hz : (Qnum q / Zpos (Qden q) = k)%Z) by (rewrite Hk; apply Z.div_mul; discriminate).
  assert (Hk0 : (0 < k)%Z) by nia.
  assert (Hk1 : (k < 2 ^ 53)%Z) by nia.
  destruct k as [|p|p]; try lia.
  destruct (Z_to_string_pos_digits p) as [Hne Hall].
  assert (Hs : js_to_string fo (read args "number") = Z_to_string (Zpos p)).
  { rewrite Hn. change (js_to_string fo (JNum (NFin q))) with (number_to_string fo (NFin q)).
    unfold number_to_string; cbv zeta. rewrite Hint, Hz.
    cbn [andb]. rewrite (proj2 (Z.ltb_lt _ _)) by lia. reflexivity. }
  exists (Z_to_string (Zpos p)). split; [exact Hne|]. split; [exact Hall|]. split; [exact Hs|].
  split.
  - intros H. destruct (number_valid_shapes args (or_introl H)) as [Hr _].
    rewrite (build_view_pr_record fo args Hr), Hs. reflexivity.
  - intros H. destruct (build_comment_pr_template fo args H) as [n [s [Hn' [Hb Hc]]]].
    exists s. split; [exact Hb|]. rewrite Hc. rewrite Hn in Hn'. injection Hn' as <-.
    rewrite Hn in Hs.
    change (js_to_string fo (JNum (NFin q))) with (number_to_string fo (NFin q)) in Hs.
    rewrite Hs. reflexivity.
Qed.

(** X10: the names the ListTools handler publishes are exactly the names
    the CallTool handler dispatches: a call fails with MethodNotFound for
    some arguments iff its name is not in the catalogue, and then it does
    for all arguments. *)
Theorem catalogue_matches_dispatcher :
  forall (fo : Q -> string) (exec : string -> res string) (name : string) (args : jsval),
  In name (map t_name listed_tools) <->
  (forall m, fst (call_tool fo exec name args) <> Throw (McpErr ErrorCode_MethodNotFound m)).
Proof.
  intros fo exec name args. change (map t_name listed_tools) with tool_names. split.
  - intros Hin m.
    destruct (call_tool_outcomes fo exec name args)
      as [[Hn _]|[[_ [_ Hc]]|[_ [_ [cmd [_ [[out [_ Hc]]|[[e [_ [_ Hc]]]|[x [_ Hc]]]]]]]]]];
      [contradiction| | | |]; rewrite Hc; discriminate.
  - intros H. destruct (call_tool_cases fo exec name args) as [[Hin _]|[_ Hc]]; [exact Hin|].
    exfalso. apply (H ("Unknown tool: " ++ name)). rewrite Hc. reflexivity.
Qed.

(** X2 at view_pr 7 with a gh that succeeds. *)
Lemma exec_success_plain_reply_witness :
  In "view_pr" tool_names /\
  tool_validator "view_pr" (JObj [("number", JNum (NFin 7))]) = Ok true /\
  call_tool no_format echo_gh "view_pr" (JObj [("number", JNum (NFin 7))]) =
    (Ok (plain_reply "ran: gh pr view 7"), ["gh pr view 7"]).
Proof.
  assert (Hin : In "view_pr" tool_names) by (simpl; tauto).
  assert (Hv : tool_validator "view_pr" (JObj [("number", JNum (NFin 7))]) = Ok true) by reflexivity.
  split; [exact Hin|]. split; [exact Hv|].
  destruct (exec_success_plain_reply no_format echo_gh "view_pr" _ Hin Hv) as [cmd [Hcmd Hk]].
  vm_compute in Hcmd. injection Hcmd as <-.
  exact (Hk _ eq_refl).
Defined.

(** X3 at list_prs with no arguments set and an executor throwing a string. *)
Lemma exec_non_error_rethrown_witness :
  In "list_prs" tool_names /\
  tool_validator "list_prs" (JObj []) = Ok true /\
  call_tool no_format non_error_gh "list_prs" (JObj []) =
    (Throw (NonErr (JStr "boom")), ["gh pr list"]).
Proof.
  assert (Hin : In "list_prs" tool_names) by (simpl; tauto).
  assert (Hv : tool_validator "list_prs" (JObj []) = Ok true) by reflexivity.
  split; [exact Hin|]. split; [exact Hv|].
  destruct (exec_non_error_rethrown no_format non_error_gh "list_prs" _ Hin Hv) as [cmd [Hcmd Hk]].
  vm_compute in Hcmd. injection Hcmd as <-.
  exact (Hk _ eq_refl).
Defined.

(** X5 at the command line of a comment_pr call. *)
Lemma commands_are_pr_subcommands_witness :
  In ("gh pr comment 3 --body " ++ dq ++ "x" ++ dq)
     (snd (call_tool no_format echo_gh "comment_pr"
             (JObj [("number", JNum (NFin 3)); ("body", JStr "x")]))) /\
  exists verb, In verb ["gh pr create --title "; "gh pr list"; "gh pr view "; "gh pr comment "] /\
    starts_with verb ("gh pr comment 3 --body " ++ dq ++ "x" ++ dq) = true.
Proof.
  assert (Hl : In ("gh pr comment 3 --body " ++ dq ++ "x" ++ dq)
                  (snd (call_tool no_format echo_gh "comment_pr"
                          (JObj [("number", JNum (NFin 3)); ("body", JStr "x")]))))
    by (vm_compute; left; reflexivity).
  split; [exact Hl|].
  exact (commands_are_pr_subcommands no_format echo_gh "comment_pr" _ _ Hl).
Defined.

(** X6 at view_pr 9 with a gh that exits non-zero. *)
Lemma reply_envelope_shape_witness :
  fst (call_tool no_format failing_gh "view_pr" (JObj [("number", JNum (NFin 9))])) =
    Ok (flagged_reply "Command failed: gh pr view 9") /\
  ((exists line out, snd (call_tool no_format failing_gh "view_pr" (JObj [("number", JNum (NFin 9))])) = [line] /\
      failing_gh line = Ok out /\
      flagged_reply "Command failed: gh pr view 9" = {| content := [text_reply out]; isError := None |}) \/
   (exists line e, snd (call_tool no_format failing_gh "view_pr" (JObj [("number", JNum (NFin 9))])) = [line] /\
      failing_gh line = Throw e /\ is_error_instance e = true /\
      flagged_reply "Command failed: gh pr view 9" =
        {| content := [text_reply ("MCP error -32603: GitHub CLI error: " ++ error_message e)];
           isError := Some true |})).
Proof.
  assert (H : fst (call_tool no_format failing_gh "view_pr" (JObj [("number", JNum (NFin 9))])) =
                Ok (flagged_reply "Command failed: gh pr view 9")) by (vm_compute; reflexivity).
  split; [exact H|].
  exact (reply_envelope_shape no_format failing_gh "view_pr" _ _ H).
Defined.

(** X7 at create_pr without a title. *)
Lemma protocol_failures_witness :
  fst (call_tool no_format echo_gh "create_pr" (JObj [("body", JStr "b")])) =
    Throw (McpErr ErrorCode_InvalidParams "Invalid create_pr arguments") /\
  ((McpErr ErrorCode_InvalidParams "Invalid create_pr arguments" =
      McpErr ErrorCode_InvalidParams ("Invalid " ++ "create_pr" ++ " arguments") /\
    snd (call_tool no_format echo_gh "create_pr" (JObj [("body", JStr "b")])) = []) \/
   (McpErr ErrorCode_InvalidParams "Invalid create_pr arguments" =
      McpErr ErrorCode_MethodNotFound ("Unknown tool: " ++ "create_pr") /\
    snd (call_tool no_format echo_gh "create_pr" (JObj [("body", JStr "b")])) = []) \/
   (exists x line, McpErr ErrorCode_InvalidParams "Invalid create_pr arguments" = NonErr x /\
      snd (call_tool no_format echo_gh "create_pr" (JObj [("body", JStr "b")])) = [line] /\
      echo_gh line = Throw (NonErr x))).
Proof.
  assert (H : fst (call_tool no_format echo_gh "create_pr" (JObj [("body", JStr "b")])) =
                Throw (McpErr ErrorCode_InvalidParams "Invalid create_pr arguments"))
    by (vm_compute; reflexivity).
  split; [exact H|].
  exact (protocol_failures no_format echo_gh "create_pr" _ _ H).
Defined.

(** X8 at a view_pr object carrying an extra property. *)
Lemma unread_properties_ignored_witness :
  (forall k, In k read_keys ->
     read (JObj [("number", JNum (NFin 4)); ("color", JStr "red")]) k =
     read (JObj [("number", JNum (NFin 4))]) k) /\
  call_tool no_format echo_gh "view_pr" (JObj [("number", JNum (NFin 4)); ("color", JStr "red")]) =
  call_tool no_format echo_gh "view_pr" (JObj [("number", JNum (NFin 4))]).
Proof.
  assert (H : forall k, In k read_keys ->
     read (JObj [("number", JNum (NFin 4)); ("color", JStr "red")]) k =
     read (JObj [("number", JNum (NFin 4))]) k).
  { intros k Hk. simpl in Hk.
    repeat (destruct Hk as [<-|Hk]; [reflexivity|]). destruct Hk. }
  split; [exact H|].
  exact (unread_properties_ignored no_format echo_gh "view_pr" _ _ H).
Defined.

(** X9 at view_pr 42. *)
Lemma pr_number_prints_as_digits_witness :
  isValidViewPrArgs (JObj [("number", JNum (NFin 42))]) = Ok true /\
  read (JObj [("number", JNum (NFin 42))]) "number" = JNum (NFin 42) /\
  Qlt 42 (inject_Z (2 ^ 53)) /\
  exists d, d <> "" /\ all_digits d = true /\
    js_to_string no_format (read (JObj [("number", JNum (NFin 42))]) "number") = d /\
    (isValidViewPrArgs (JObj [("number", JNum (NFin 42))]) = Ok true ->
       build_view_pr no_format (JObj [("number", JNum (NFin 42))]) = Ok ("pr view " ++ d)) /\
    (isValidCommentPrArgs (JObj [("number", JNum (NFin 42))]) = Ok true ->
       exists s, read (JObj [("number", JNum (NFin 42))]) "body" = JStr s /\
         build_comment_pr no_format (JObj [("number", JNum (NFin 42))]) =
           Ok ("pr comment " ++ d ++ " --body " ++ quote s)).
Proof.
  assert (Hv : isValidViewPrArgs (JObj [("number", JNum (NFin 42))]) = Ok true) by reflexivity.
  assert (Hn : read (JObj [("number", JNum (NFin 42))]) "number" = JNum (NFin 42)) by reflexivity.
  assert (Hl : Qlt 42 (inject_Z (2 ^ 53))) by reflexivity.
  split; [exact Hv|]. split; [exact Hn|]. split; [exact Hl|].
  exact (pr_number_prints_as_digits no_format _ 42 (or_introl Hv) Hn Hl).
Defined.
